(** * The order and registration gateway of [app.py]

    A shallow embedding of the operations of [app.py]: the record store
    ([read_db], [write_db]), the registration check, the address lookup, the
    save of an address, the two order operations and the endpoint that
    dispatches on the [action] field.

    Python values that travel as JSON (the store, the lookup answer, the
    result payloads) are values of [json]; dicts are finite maps with string
    keys.  The store file, the lookup service, the spreadsheet and the clock
    form the [world] the operations run in; an operation is a function from
    a world to an outcome (a value or a raised exception) and a new world. *)

From Stdlib Require Import ZArith Ascii String.
From Stdlib Require Import Floats.SpecFloat.
From stdpp Require Import base option strings gmap.

Local Open Scope string_scope.

(** ** JSON values *)

(** What [json.load] builds and [json.dump] writes: [None], [bool], [int],
    [float], [str], [list] and [dict] with string keys. *)
#[warnings="-register-all"]
Inductive json : Type :=
  | JNull
  | JBool (b : bool)
  | JInt (n : Z)
  | JFloat (f : spec_float)
  | JStr (s : string)
  | JArr (l : list json)
  | JObj (m : gmap string json).

(** The name Python gives to the type of a value, as it shows in the text
    of an [AttributeError] or a [TypeError]. *)
Definition type_name (v : json) : string :=
  match v with
  | JNull => "NoneType"
  | JBool _ => "bool"
  | JInt _ => "int"
  | JFloat _ => "float"
  | JStr _ => "str"
  | JArr _ => "list"
  | JObj _ => "dict"
  end.

(** Truth value of a Python object, as [if v:] tests it. *)
Definition truthy (v : json) : bool :=
  match v with
  | JNull => false
  | JBool b => b
  | JInt n => negb (n =? 0)%Z
  | JFloat (S754_zero _) => false
  | JFloat _ => true
  | JStr s => negb (String.eqb s "")
  | JArr l => match l with [] => false | _ :: _ => true end
  | JObj m => negb (size m =? 0)%nat
  end.

(** [v == s] for a string literal [s]. *)
Definition eq_str (v : json) (s : string) : bool :=
  match v with
  | JStr t => String.eqb t s
  | _ => false
  end.

(** [v is None] *)
Definition is_None (v : json) : bool :=
  match v with
  | JNull => true
  | _ => false
  end.

(** ** Exceptions *)

(** The classes the [except] clauses of the program tell apart.
    [RequestException] stands for [requests.exceptions.RequestException] and
    its subclasses ([ConnectionError], [HTTPError], ...), [APIError] for
    [gspread.exceptions.APIError]; [OtherException] is any other subclass of
    [Exception], with the name of its class.  What is raised outside
    [Exception] (an interrupt, an exit) is not modelled. *)
Inductive exn : Type :=
  | RequestException (text : string)
  | APIError (text : string)
  | KeyError (key : string)
  | OtherException (cls : string) (text : string).

(** [str(e)]: a [KeyError] prints the [repr] of the missing key. *)
Definition str_exn (e : exn) : string :=
  match e with
  | RequestException text => text
  | APIError text => text
  | KeyError key => "'" +:+ key +:+ "'"
  | OtherException _ text => text
  end.

(** ** The world outside the process *)

(** A response of the lookup service: its status code, the text
    [raise_for_status] gives its [HTTPError] when the status is an error,
    and the JSON document of its body.  A body that is not a JSON document
    is outside the model. *)
Record response : Type := Response {
  status_code : Z;
  http_error_text : string;
  body : json
}.

(** What [requests.get] meets: a transport failure or a response. *)
Inductive http_outcome : Type :=
  | TransportFailure (text : string)
  | Answer (r : response).

(** A row of a worksheet: the cells in order. *)
Abbreviation row := (list json).

(** The file [DB_FILE]: it holds a JSON document, or opening and loading
    it raises (the file is missing, or its text is not JSON). *)
Inductive file_state : Type :=
  | Holds (v : json)
  | Unreadable (e : exn).

Record world : Type := World {
  (** the file [DB_FILE] *)
  db_file : file_state;
  (** answer of the network to a GET of a url *)
  http : string → http_outcome;
  (** failure, if any, of [client.open_by_key(SHEET_ID).worksheet(name)] *)
  worksheet_error : string → option exn;
  (** failure, if any, of appending a row to a worksheet *)
  append_error : string → row → option exn;
  (** the current time in America/Sao_Paulo, formatted "%Y-%m-%d %H:%M:%S" *)
  clock : string;
  (** rows held by each worksheet *)
  sheets : gmap string (list row);
  (** every call of [append_row] made so far, latest first *)
  append_calls : list (string * row)
}.

Definition set_db_file (v : file_state) (w : world) : world :=
  World v (http w) (worksheet_error w) (append_error w) (clock w)
        (sheets w) (append_calls w).

Definition set_sheets (s : gmap string (list row)) (w : world) : world :=
  World (db_file w) (http w) (worksheet_error w) (append_error w) (clock w)
        s (append_calls w).

Definition log_append_call (name : string) (r : row) (w : world) : world :=
  World (db_file w) (http w) (worksheet_error w) (append_error w) (clock w)
        (sheets w) ((name, r) :: append_calls w).

(** ** Operations: state and exceptions *)

Inductive outcome (A : Type) : Type :=
  | Return (a : A)
  | Raise (e : exn).
Arguments Return {A} a.
Arguments Raise {A} e.

Definition M (A : Type) : Type := world → outcome A * world.

#[global] Instance M_ret : MRet M := λ A a w, (Return a, w).

#[global] Instance M_bind : MBind M := λ A B f m w,
  match m w with
  | (Return a, w') => f a w'
  | (Raise e, w') => (Raise e, w')
  end.

Definition raise {A} (e : exn) : M A := λ w, (Raise e, w).

(** [try: body  except ...: handler]; a handler re-raises what its clauses
    do not match. *)
Definition try_except {A} (body : M A) (handler : exn → M A) : M A := λ w,
  match body w with
  | (Return a, w') => (Return a, w')
  | (Raise e, w') => handler e w'
  end.

Definition get_world : M world := λ w, (Return w, w).
Definition modify_world (f : world → world) : M unit := λ w, (Return tt, f w).

(** ** Python primitives *)

(** [v[k]] for a string [k]: the value under the key, a [KeyError] when a
    dict has not the key, a [TypeError] when the value is not a dict. *)
Definition subscript (v : json) (k : string) : outcome json :=
  match v with
  | JObj m =>
      match m !! k with
      | Some x => Return x
      | None => Raise (KeyError k)
      end
  | JArr _ =>
      Raise (OtherException "TypeError"
               "list indices must be integers or slices, not str")
  | JStr _ =>
      Raise (OtherException "TypeError"
               "string indices must be integers, not 'str'")
  | _ =>
      Raise (OtherException "TypeError"
               ("'" +:+ type_name v +:+ "' object is not subscriptable"))
  end.

Definition getitem (v : json) (k : string) : M json :=
  λ w, (subscript v k, w).

(** [v.keys()] *)
Definition keys (v : json) : M (gset string) :=
  match v with
  | JObj m => mret (dom m)
  | _ =>
      raise (OtherException "AttributeError"
               ("'" +:+ type_name v +:+ "' object has no attribute 'keys'"))
  end.

(** [d[k] = x] on a value that is a dict *)
Definition setitem (v : json) (k : string) (x : json) : M json :=
  match v with
  | JObj m => mret (JObj (<[k := x]> m))
  | _ =>
      raise (OtherException "TypeError"
               ("'" +:+ type_name v +:+
                "' object does not support item assignment"))
  end.

(** ** Record store *)

Definition read_db : M json :=
  w ← get_world;
  match db_file w with
  | Holds db => mret db
  | Unreadable e => raise e
  end.

(** Opening the file for writing and dumping the store are taken to
    succeed: the file then holds what was dumped. *)
Definition write_db (db : json) : M unit :=
  modify_world (set_db_file (Holds db)).

(** ** Registration check *)

Definition check_registration (rm : string) : M json :=
  db ← read_db;
  ks ← keys db;
  if negb (bool_decide (rm ∈ ks)) then
    mret (JObj {[ "error" := JBool true;
                  "status" := JStr "not_found";
                  "detail" := JStr ("RM " +:+ rm +:+
                                    " not found in the database.") ]})
  else
    v ← getitem db rm;
    if is_None v then
      mret (JObj {[ "error" := JBool true;
                    "status" := JStr "unregistered_address";
                    "detail" := JStr ("RM " +:+ rm +:+
                      " found in the database, but its address is None.") ]})
    else
      v' ← getitem db rm;
      mret (JObj {[ "error" := JBool false;
                    "status" := JStr "registered";
                    "detail" := JStr ("RM " +:+ rm +:+
                                      " found in the database.");
                    "data" := v' ]}).

(** ** Address lookup *)

(** [requests.get(url)] *)
Definition requests_get (url : string) : M response :=
  w ← get_world;
  match http w url with
  | TransportFailure text => raise (RequestException text)
  | Answer r => mret r
  end.

(** [response.raise_for_status()]: an [HTTPError], which is a
    [RequestException], for a status from 400 to 599. *)
Definition raise_for_status (r : response) : M unit :=
  if ((400 <=? status_code r) && (status_code r <? 600))%Z
  then raise (RequestException (http_error_text r))
  else mret tt.

(** [response.json()] *)
Definition response_json (r : response) : M json := mret (body r).

(** [f'https://viacep.com.br/ws/{cep}/json'] *)
Definition lookup_url (cep : string) : string :=
  "https://viacep.com.br/ws/" +:+ cep +:+ "/json".

Definition get_address (cep : string) : M json :=
  try_except
    (r ← requests_get (lookup_url cep);
     _ ← raise_for_status r;
     data ← response_json r;
     ks ← keys data;
     if bool_decide ("erro" ∈ ks) then
       mret (JObj {[ "error" := JBool true;
                     "detail" := JStr "CEP not found." ]})
     else
       logradouro ← getitem data "logradouro";
       bairro ← getitem data "bairro";
       localidade ← getitem data "localidade";
       uf ← getitem data "uf";
       let address := JObj {[ "cep" := JStr cep;
                              "rua" := logradouro;
                              "bairro" := bairro;
                              "cidade" := localidade;
                              "estado" := uf ]} in
       mret (JObj {[ "error" := JBool false; "data" := address ]}))
    (λ err,
       match err with
       | RequestException _ =>
           mret (JObj {[ "error" := JBool true;
                         "detail" := JStr (str_exn err) ]})
       | _ => raise err
       end).

(** ** Payload models *)

Module PayloadGetAddress.
Record t : Type := Build { cep : string }.
End PayloadGetAddress.

Module PayloadSaveAddress.
Record t : Type := Build {
  rm : string; cep : string; numero : Z; nome : string }.
End PayloadSaveAddress.

Module PayloadCheckRegistration.
Record t : Type := Build { rm : string }.
End PayloadCheckRegistration.

Module PayloadMakeOrderTech.
Record t : Type := Build {
  rm : string; produto : string; marca : string; valor : spec_float }.
End PayloadMakeOrderTech.

Module PayloadMakeOrderPoke.
Record t : Type := Build {
  rm : string; tamanho : string; base : string; topping : string;
  crunch : string; proteina : string; molho : string;
  valor : spec_float }.
End PayloadMakeOrderPoke.

(** ** Saving an address *)

Definition save_address (payload : PayloadSaveAddress.t) : M json :=
  db ← read_db;
  check_result ← check_registration (PayloadSaveAddress.rm payload);
  status ← getitem check_result "status";
  if eq_str status "not_found" then mret check_result
  else
    address_details ← get_address (PayloadSaveAddress.cep payload);
    err ← getitem address_details "error";
    if truthy err then mret address_details
    else
      d1 ← getitem address_details "data"; rua ← getitem d1 "rua";
      d2 ← getitem address_details "data"; bairro ← getitem d2 "bairro";
      d3 ← getitem address_details "data"; cidade ← getitem d3 "cidade";
      d4 ← getitem address_details "data"; estado ← getitem d4 "estado";
      let address :=
        JObj {[ "cep" := JStr (PayloadSaveAddress.cep payload);
                "rua" := rua;
                "bairro" := bairro;
                "cidade" := cidade;
                "estado" := estado;
                "numero" := JInt (PayloadSaveAddress.numero payload);
                "nome" := JStr (PayloadSaveAddress.nome payload) ]} in
      db' ← setitem db (PayloadSaveAddress.rm payload) address;
      _ ← write_db db';
      mret (JObj {[ "error" := JBool false;
                    "status" := JStr "updated";
                    "data" := JStr ("Address for RM " +:+
                                    PayloadSaveAddress.rm payload +:+
                                    " updated successfully.") ]}).

(** ** Orders *)

Definition tech_store_sheet_name : string := "Tech Store".
Definition poke_store_sheet_name : string := "Poke Store".

(** [client.open_by_key(SHEET_ID).worksheet(sheet_name)]; the handle of a
    worksheet is its name. *)
Definition open_worksheet (sheet_name : string) : M string :=
  w ← get_world;
  match worksheet_error w sheet_name with
  | Some e => raise e
  | None => mret sheet_name
  end.

(** [datetime.datetime.now(sao_paulo_tz).strftime("%Y-%m-%d %H:%M:%S")] *)
Definition now_formatted : M string :=
  w ← get_world; mret (clock w).

(** [sheet.append_row(order)]: the call is recorded, then it fails or adds
    the row at the end of the worksheet. *)
Definition append_row (sheet : string) (order : row) : M unit :=
  _ ← modify_world (log_append_call sheet order);
  w ← get_world;
  match append_error w sheet order with
  | Some e => raise e
  | None =>
      modify_world
        (set_sheets
           (<[sheet := (default [] (sheets w !! sheet) ++ [order])%list]>
              (sheets w)))
  end.

(** The three [except] clauses shared by the two order operations. *)
Definition order_handler (e : exn) : M json :=
  match e with
  | APIError _ =>
      mret (JObj {[ "error" := JBool true;
                    "status" := JStr "api_error";
                    "detail" := JStr
                      ("Error occurred while accessing Google Sheets API: "
                       +:+ str_exn e) ]})
  | KeyError _ =>
      mret (JObj {[ "error" := JBool true;
                    "status" := JStr "missing_data";
                    "detail" := JStr ("Missing data in address details: "
                                      +:+ str_exn e) ]})
  | _ =>
      mret (JObj {[ "error" := JBool true;
                    "status" := JStr "unknown_error";
                    "detail" := JStr ("An unknown error occurred: "
                                      +:+ str_exn e) ]})
  end.

(** The status an [except] clause of the order operations gives. *)
Definition failure_status (e : exn) : string :=
  match e with
  | APIError _ => "api_error"
  | KeyError _ => "missing_data"
  | _ => "unknown_error"
  end.

(** The result both order operations return once the row is appended. *)
Definition order_made (rm : string) : json :=
  JObj {[ "error" := JBool false;
          "status" := JStr "order_made";
          "detail" := JStr ("Order for RM " +:+ rm +:+
                            " made successfully.") ]}.

Definition make_order_tech (payload : PayloadMakeOrderTech.t)
    (sheet_name : string) : M json :=
  check_result ← check_registration (PayloadMakeOrderTech.rm payload);
  err ← getitem check_result "error";
  if truthy err then mret check_result
  else
    data ← getitem check_result "data";
    try_except
      (sheet ← open_worksheet sheet_name;
       timestamp ← now_formatted;
       cep ← getitem data "cep";
       rua ← getitem data "rua";
       numero ← getitem data "numero";
       bairro ← getitem data "bairro";
       cidade ← getitem data "cidade";
       estado ← getitem data "estado";
       nome ← getitem data "nome";
       let order := [ JStr timestamp;
                      JStr (PayloadMakeOrderTech.rm payload);
                      JStr (PayloadMakeOrderTech.produto payload);
                      JStr (PayloadMakeOrderTech.marca payload);
                      JFloat (PayloadMakeOrderTech.valor payload);
                      cep; rua; numero; bairro; cidade; estado; nome ] in
       _ ← append_row sheet order;
       mret (order_made (PayloadMakeOrderTech.rm payload)))
      order_handler.

Definition make_order_poke (payload : PayloadMakeOrderPoke.t)
    (sheet_name : string) : M json :=
  check_result ← check_registration (PayloadMakeOrderPoke.rm payload);
  err ← getitem check_result "error";
  if truthy err then mret check_result
  else
    data ← getitem check_result "data";
    try_except
      (sheet ← open_worksheet sheet_name;
       timestamp ← now_formatted;
       cep ← getitem data "cep";
       rua ← getitem data "rua";
       numero ← getitem data "numero";
       bairro ← getitem data "bairro";
       cidade ← getitem data "cidade";
       estado ← getitem data "estado";
       nome ← getitem data "nome";
       let order := [ JStr timestamp;
                      JStr (PayloadMakeOrderPoke.rm payload);
                      JStr (PayloadMakeOrderPoke.tamanho payload);
                      JStr (PayloadMakeOrderPoke.base payload);
                      JStr (PayloadMakeOrderPoke.topping payload);
                      JStr (PayloadMakeOrderPoke.crunch payload);
                      JStr (PayloadMakeOrderPoke.proteina payload);
                      JStr (PayloadMakeOrderPoke.molho payload);
                      JFloat (PayloadMakeOrderPoke.valor payload);
                      cep; rua; numero; bairro; cidade; estado; nome ] in
       _ ← append_row sheet order;
       mret (order_made (PayloadMakeOrderPoke.rm payload)))
      order_handler.

(** ** Request models *)

(** The five input classes; each fixes its [action] to one literal. *)
Inductive model : Type :=
  | MGetAddress
  | MSaveAddress
  | MCheckRegistration
  | MMakeOrderTech
  | MMakeOrderPoke.

Definition literal (m : model) : string :=
  match m with
  | MGetAddress => "get_address"
  | MSaveAddress => "save_address"
  | MCheckRegistration => "check_registration"
  | MMakeOrderTech => "make_order_tech"
  | MMakeOrderPoke => "make_order_poke"
  end.

Definition input_model_mapping : gmap string model :=
  {[ "get_address" := MGetAddress;
     "save_address" := MSaveAddress;
     "check_registration" := MCheckRegistration;
     "make_order_tech" := MMakeOrderTech;
     "make_order_poke" := MMakeOrderPoke ]}.

(** An instance of one of the five input classes: the parameter type of
    [api_endpoint]. *)
Inductive input_data : Type :=
  | InputGetAddress (p : PayloadGetAddress.t)
  | InputSaveAddress (p : PayloadSaveAddress.t)
  | InputCheckRegistration (p : PayloadCheckRegistration.t)
  | InputMakeOrderTech (p : PayloadMakeOrderTech.t)
  | InputMakeOrderPoke (p : PayloadMakeOrderPoke.t).

Definition model_of (i : input_data) : model :=
  match i with
  | InputGetAddress _ => MGetAddress
  | InputSaveAddress _ => MSaveAddress
  | InputCheckRegistration _ => MCheckRegistration
  | InputMakeOrderTech _ => MMakeOrderTech
  | InputMakeOrderPoke _ => MMakeOrderPoke
  end.

(** [input_data.action] *)
Definition action (i : input_data) : string := literal (model_of i).

(** ** Dispatch *)

Definition invalid_action : json :=
  JObj {[ "error" := JBool true; "detail" := JStr "Invalid action" ]}.

Definition wrapped (action : string) (result : json) : json :=
  JObj {[ "action" := JStr action; "response_payload" := result ]}.

(** What reading an attribute its class does not have raises. *)
Definition no_attribute {A} (i : input_data) : M A :=
  raise (OtherException "AttributeError"
           ("object of the model for '" +:+ action i +:+
            "' lacks an attribute")).

(** The arms of [match action] compare the string; under each arm the
    attributes are read from the object. *)
Definition api_endpoint (i : input_data) : M json :=
  let action := action i in
  if negb (bool_decide (action ∈ dom input_model_mapping)) then
    mret (wrapped action invalid_action)
  else if String.eqb action "get_address" then
    match i with
    | InputGetAddress p =>
        result ← get_address (PayloadGetAddress.cep p);
        mret (wrapped action result)
    | _ => no_attribute i
    end
  else if String.eqb action "save_address" then
    match i with
    | InputSaveAddress p =>
        result ← save_address p; mret (wrapped action result)
    | _ => no_attribute i
    end
  else if String.eqb action "check_registration" then
    match i with
    | InputCheckRegistration p =>
        result ← check_registration (PayloadCheckRegistration.rm p);
        mret (wrapped action result)
    | _ => no_attribute i
    end
  else if String.eqb action "make_order_tech" then
    match i with
    | InputMakeOrderTech p =>
        result ← make_order_tech p tech_store_sheet_name;
        mret (wrapped action result)
    | _ => no_attribute i
    end
  else if String.eqb action "make_order_poke" then
    match i with
    | InputMakeOrderPoke p =>
        result ← make_order_poke p poke_store_sheet_name;
        mret (wrapped action result)
    | _ => no_attribute i
    end
  else
    mret (wrapped action invalid_action).

(** ** Validation of the request body *)

(** The framework validates the body against the union of the five input
    classes before [api_endpoint] runs.  What the source fixes is modelled
    here: a class accepts a body only if the [action] of the body, when
    given, is the literal of the class (the field has that literal as its
    default).  How the validation library reads the other fields, and which
    class it keeps when several accept, is a parameter. *)
Record validation : Type := Validation {
  get_address_fields : gmap string json → option PayloadGetAddress.t;
  save_address_fields : gmap string json → option PayloadSaveAddress.t;
  check_registration_fields :
    gmap string json → option PayloadCheckRegistration.t;
  make_order_tech_fields : gmap string json → option PayloadMakeOrderTech.t;
  make_order_poke_fields : gmap string json → option PayloadMakeOrderPoke.t;
  (** position, among the accepting classes, of the one that is kept *)
  choose : list input_data → nat
}.

(** [action: Literal[l] = l] *)
Definition validate_action (m : model) (fields : gmap string json) : bool :=
  match fields !! "action" with
  | None => true
  | Some v => eq_str v (literal m)
  end.

Definition validate_model (V : validation) (fields : gmap string json)
    (m : model) : option input_data :=
  if validate_action m fields then
    match m with
    | MGetAddress => InputGetAddress <$> get_address_fields V fields
    | MSaveAddress => InputSaveAddress <$> save_address_fields V fields
    | MCheckRegistration =>
        InputCheckRegistration <$> check_registration_fields V fields
    | MMakeOrderTech => InputMakeOrderTech <$> make_order_tech_fields V fields
    | MMakeOrderPoke => InputMakeOrderPoke <$> make_order_poke_fields V fields
    end
  else None.

(** The members of the union in the annotation of [api_endpoint]. *)
Definition union_members : list model :=
  [MGetAddress; MSaveAddress; MCheckRegistration; MMakeOrderTech;
   MMakeOrderPoke].

Definition validate_input (V : validation) (body : json)
    : option input_data :=
  match body with
  | JObj fields =>
      match omap (validate_model V fields) union_members with
      | [] => None
      | i :: rest => Some (default i ((i :: rest) !! choose V (i :: rest)))
      end
  | _ => None
  end.

(** What the caller of [POST /] gets: the value [api_endpoint] returned, or
    the validation error of the framework (status 422). *)
Inductive reply : Type :=
  | Content (v : json)
  | ValidationError.

Definition post (V : validation) (body : json) : M reply :=
  match validate_input V body with
  | None => mret ValidationError
  | Some i => v ← api_endpoint i; mret (Content v)
  end.

(** The value of an [action] field is one of the five literals. *)
Definition known_action (a : json) : Prop := ∃ m, a = JStr (literal m).

(** ** Result payloads of the registration check *)

Definition not_found (rm : string) : json :=
  JObj {[ "error" := JBool true;
          "status" := JStr "not_found";
          "detail" := JStr ("RM " +:+ rm +:+
                            " not found in the database.") ]}.

Definition unregistered_address (rm : string) : json :=
  JObj {[ "error" := JBool true;
          "status" := JStr "unregistered_address";
          "detail" := JStr ("RM " +:+ rm +:+
            " found in the database, but its address is None.") ]}.

Definition registered (rm : string) (record : json) : json :=
  JObj {[ "error" := JBool false;
          "status" := JStr "registered";
          "detail" := JStr ("RM " +:+ rm +:+ " found in the database.");
          "data" := record ]}.

(** ** Result payloads of the address lookup *)

Definition soft_error (detail : string) : json :=
  JObj {[ "error" := JBool true; "detail" := JStr detail ]}.

Definition cep_not_found : json := soft_error "CEP not found.".

Definition address_found (cep : string) (rua bairro cidade estado : json)
    : json :=
  JObj {[ "error" := JBool false;
          "data" := JObj {[ "cep" := JStr cep;
                            "rua" := rua;
                            "bairro" := bairro;
                            "cidade" := cidade;
                            "estado" := estado ]} ]}.

(** A tagged result: [{error: false, data}] or [{error: true, detail}]. *)
Definition tagged (v : json) : Prop :=
  (∃ data, v = JObj {[ "error" := JBool false; "data" := data ]})
  ∨ (∃ detail, v = soft_error detail).

(** [raise_for_status] raises on this status. *)
Definition error_status (r : response) : bool :=
  ((400 <=? status_code r) && (status_code r <? 600))%Z.

(** The answers the lookup is written for: a transport failure, an error
    status, or an object that has the key [erro] or the four address
    keys. *)
Definition orderly (o : http_outcome) : Prop :=
  match o with
  | TransportFailure _ => True
  | Answer r =>
      error_status r = true
      ∨ ∃ m, body r = JObj m
             ∧ ("erro" ∈ dom m
                ∨ {[ "logradouro"; "bairro"; "localidade"; "uf" ]} ⊆ dom m)
  end.

(** ** Result payloads of saving an address *)

(** The record [save_address] stores: the address fields of the lookup
    with the house number and the name of the request. *)
Definition merged_record (payload : PayloadSaveAddress.t)
    (rua bairro cidade estado : json) : gmap string json :=
  {[ "cep" := JStr (PayloadSaveAddress.cep payload);
     "rua" := rua;
     "bairro" := bairro;
     "cidade" := cidade;
     "estado" := estado;
     "numero" := JInt (PayloadSaveAddress.numero payload);
     "nome" := JStr (PayloadSaveAddress.nome payload) ]}.

Definition updated (rm : string) : json :=
  JObj {[ "error" := JBool false;
          "status" := JStr "updated";
          "data" := JStr ("Address for RM " +:+ rm +:+
                          " updated successfully.") ]}.

(** The world after [write_db] of the store [db]. *)
Definition stored (db : gmap string json) (w : world) : world :=
  set_db_file (Holds (JObj db)) w.

(** A result that is not an error: its [error] field is [False]. *)
Definition non_error (v : json) : Prop :=
  ∃ m, v = JObj m ∧ m !! "error" = Some (JBool false).

(** ** Results of the order operations *)

(** What the [except] clauses of an order operation return for [e]. *)
Definition order_failure (e : exn) : json :=
  match e with
  | APIError _ =>
      JObj {[ "error" := JBool true;
              "status" := JStr "api_error";
              "detail" := JStr
                ("Error occurred while accessing Google Sheets API: "
                 +:+ str_exn e) ]}
  | KeyError _ =>
      JObj {[ "error" := JBool true;
              "status" := JStr "missing_data";
              "detail" := JStr ("Missing data in address details: "
                                +:+ str_exn e) ]}
  | _ =>
      JObj {[ "error" := JBool true;
              "status" := JStr "unknown_error";
              "detail" := JStr ("An unknown error occurred: "
                                +:+ str_exn e) ]}
  end.

(** ** A validator and worlds to run the operations in *)

Definition is_digit (c : ascii) : bool :=
  ((48 <=? nat_of_ascii c) && (nat_of_ascii c <=? 57))%nat.

(** [^\d{lo,hi}$] on a string of ASCII characters *)
Definition digits_between (lo hi : nat) (s : string) : bool :=
  forallb is_digit (list_ascii_of_string s)
  && ((lo <=? String.length s) && (String.length s <=? hi))%nat.

Definition CEP (v : json) : option string :=
  match v with
  | JStr s => if digits_between 8 8 s then Some s else None
  | _ => None
  end.

Definition RM (v : json) : option string :=
  match v with
  | JStr s => if digits_between 5 6 s then Some s else None
  | _ => None
  end.

Definition as_str (v : json) : option string :=
  match v with JStr s => Some s | _ => None end.

Definition as_int (v : json) : option Z :=
  match v with JInt n => Some n | _ => None end.

Definition as_float (v : json) : option spec_float :=
  match v with
  | JFloat f => Some f
  | JInt n => Some (binary_normalize 53 1024 n 0 false)
  | _ => None
  end.

(** A validator that takes each field as the JSON value of its declared
    type, without conversion from other types. *)
Definition plain_validation : validation := {|
  get_address_fields fields :=
    cep ← fields !! "cep" ≫= CEP;
    Some (PayloadGetAddress.Build cep);
  save_address_fields fields :=
    rm ← fields !! "rm" ≫= RM;
    cep ← fields !! "cep" ≫= CEP;
    numero ← fields !! "numero" ≫= as_int;
    nome ← fields !! "nome" ≫= as_str;
    Some (PayloadSaveAddress.Build rm cep numero nome);
  check_registration_fields fields :=
    rm ← fields !! "rm" ≫= RM;
    Some (PayloadCheckRegistration.Build rm);
  make_order_tech_fields fields :=
    rm ← fields !! "rm" ≫= RM;
    produto ← fields !! "produto" ≫= as_str;
    marca ← fields !! "marca" ≫= as_str;
    valor ← fields !! "valor" ≫= as_float;
    Some (PayloadMakeOrderTech.Build rm produto marca valor);
  make_order_poke_fields fields :=
    rm ← fields !! "rm" ≫= RM;
    tamanho ← fields !! "tamanho" ≫= as_str;
    base ← fields !! "base" ≫= as_str;
    topping ← fields !! "topping" ≫= as_str;
    crunch ← fields !! "crunch" ≫= as_str;
    proteina ← fields !! "proteina" ≫= as_str;
    molho ← fields !! "molho" ≫= as_str;
    valor ← fields !! "valor" ≫= as_float;
    Some (PayloadMakeOrderPoke.Build rm tamanho base topping crunch proteina
            molho valor);
  choose _ := 0%nat
|}.

Definition se_address : json :=
  JObj {[ "cep" := JStr "01001000";
          "rua" := JStr "Praca da Se";
          "bairro" := JStr "Se";
          "cidade" := JStr "Sao Paulo";
          "estado" := JStr "SP";
          "numero" := JInt 100;
          "nome" := JStr "Ana" ]}.

(** A store with an unregistered customer and a registered one. *)
Definition example_db : gmap string json :=
  {[ "12345" := JNull; "54321" := se_address ]}.

(** A lookup service that knows one postal code, reports another as not
    found, answers a third with an empty object and a fourth with a server
    error, and is out of reach for the rest. *)
Definition example_http (url : string) : http_outcome :=
  if String.eqb url "https://viacep.com.br/ws/01001000/json" then
    Answer (Response 200 ""
              (JObj {[ "logradouro" := JStr "Praca da Se";
                       "bairro" := JStr "Se";
                       "localidade" := JStr "Sao Paulo";
                       "uf" := JStr "SP" ]}))
  else if String.eqb url "https://viacep.com.br/ws/99999999/json" then
    Answer (Response 200 "" (JObj {[ "erro" := JBool true ]}))
  else if String.eqb url "https://viacep.com.br/ws/00000000/json" then
    Answer (Response 200 "" (JObj ∅))
  else if String.eqb url "https://viacep.com.br/ws/50000000/json" then
    Answer (Response 500 "500 Server Error: Internal Server Error"
              (JObj {[ "erro" := JBool false ]}))
  else TransportFailure "connection refused".

Definition example_world : world := {|
  db_file := Holds (JObj example_db);
  http := example_http;
  worksheet_error := λ _, None;
  append_error := λ _ _, None;
  clock := "2024-05-01 12:00:00";
  sheets := ∅;
  append_calls := []
|}.

(** The same world, with the store file missing. *)
Definition no_store_world : world :=
  set_db_file
    (Unreadable (OtherException "FileNotFoundError"
                   "[Errno 2] No such file or directory"))
    example_world.

Definition save_ana : PayloadSaveAddress.t :=
  PayloadSaveAddress.Build "12345" "01001000" 100 "Ana".

Definition order_tech_54321 : PayloadMakeOrderTech.t :=
  PayloadMakeOrderTech.Build "54321" "mouse" "acme" (S754_zero false).

Definition order_poke_54321 : PayloadMakeOrderPoke.t :=
  PayloadMakeOrderPoke.Build "54321" "M" "arroz" "manga" "cebola" "salmao"
    "shoyu" (S754_zero false).

(** A store whose one record has only its postal code, and the example
    world with that store. *)
Definition partial_record_world : world :=
  stored {[ "11111" := JObj {[ "cep" := JStr "01001000" ]} ]} example_world.

(** The example world with the spreadsheet service refusing access. *)
Definition sheets_refused_world : world := {|
  db_file := Holds (JObj example_db);
  http := example_http;
  worksheet_error := λ _, Some (APIError "403 PERMISSION_DENIED");
  append_error := λ _ _, None;
  clock := "2024-05-01 12:00:00";
  sheets := ∅;
  append_calls := []
|}.

Definition order_tech_11111 : PayloadMakeOrderTech.t :=
  PayloadMakeOrderTech.Build "11111" "mouse" "acme" (S754_zero false).

(** A request that names an action no class has. *)
Definition remove_address_request : json :=
  JObj {[ "action" := JStr "remove_address"; "rm" := JStr "12345" ]}.

Definition check_54321_request : json :=
  JObj {[ "action" := JStr "check_registration"; "rm" := JStr "54321" ]}.

(** ** The row of an order *)

(** The fields of the customer record an order reads, in the order the
    row is built. *)
Definition address_fields : list string :=
  ["cep"; "rua"; "numero"; "bairro"; "cidade"; "estado"; "nome"].

(** Reads the fields [ks] of [data] one after the other: the values, or
    what the first failing read raises. *)
Fixpoint read_fields (data : json) (ks : list string)
    : outcome (list json) :=
  match ks with
  | [] => Return []
  | k :: ks' =>
      match subscript data k with
      | Raise e => Raise e
      | Return v =>
          match read_fields data ks' with
          | Raise e => Raise e
          | Return vs => Return (v :: vs)
          end
      end
  end.

(** The cells of a row that come from the request. *)
Definition tech_items (payload : PayloadMakeOrderTech.t) : list json :=
  [ JStr (PayloadMakeOrderTech.rm payload);
    JStr (PayloadMakeOrderTech.produto payload);
    JStr (PayloadMakeOrderTech.marca payload);
    JFloat (PayloadMakeOrderTech.valor payload) ].

Definition poke_items (payload : PayloadMakeOrderPoke.t) : list json :=
  [ JStr (PayloadMakeOrderPoke.rm payload);
    JStr (PayloadMakeOrderPoke.tamanho payload);
    JStr (PayloadMakeOrderPoke.base payload);
    JStr (PayloadMakeOrderPoke.topping payload);
    JStr (PayloadMakeOrderPoke.crunch payload);
    JStr (PayloadMakeOrderPoke.proteina payload);
    JStr (PayloadMakeOrderPoke.molho payload);
    JFloat (PayloadMakeOrderPoke.valor payload) ].

(** The world after a call of [append_row] that went through: the call is
    recorded and the row is the last of its worksheet. *)
Definition appended (sheet : string) (order : row) (w : world) : world :=
  set_sheets
    (<[sheet := (default [] (sheets w !! sheet) ++ [order])%list]> (sheets w))
    (log_append_call sheet order w).

(** The example world with a worksheet that refuses every row. *)
Definition append_refused_world : world := {|
  db_file := Holds (JObj example_db);
  http := example_http;
  worksheet_error := λ _, None;
  append_error := λ _ _, Some (APIError "429 RESOURCE_EXHAUSTED");
  clock := "2024-05-01 12:00:00";
  sheets := ∅;
  append_calls := []
|}.

(** The example world with a store file that holds a list. *)
Definition list_store_world : world :=
  set_db_file (Holds (JArr [])) example_world.

Definition save_bia : PayloadSaveAddress.t :=
  PayloadSaveAddress.Build "12345" "01001000" 7 "Bia".

Definition save_caio : PayloadSaveAddress.t :=
  PayloadSaveAddress.Build "54321" "01001000" 9 "Caio".

(** ** Missing keys *)

(** The keys of the answer of the lookup service that [get_address]
    reads, in the order it reads them. *)
Definition lookup_fields : list string :=
  ["logradouro"; "bairro"; "localidade"; "uf"].

(** The first of the keys [ks] that the dict [m] has not. *)
Fixpoint first_missing (m : gmap string json) (ks : list string)
    : option string :=
  match ks with
  | [] => None
  | k :: ks' =>
      match m !! k with
      | None => Some k
      | Some _ => first_missing m ks'
      end
  end.

(** A lookup service whose answers stop after the district. *)
Definition half_answer_world : world := {|
  db_file := Holds (JObj example_db);
  http := λ _, Answer (Response 200 ""
                         (JObj {[ "logradouro" := JStr "Praca da Se";
                                  "bairro" := JStr "Se" ]}));
  worksheet_error := λ _, None;
  append_error := λ _ _, None;
  clock := "2024-05-01 12:00:00";
  sheets := ∅;
  append_calls := []
|}.

(** A lookup service that answers every request with an empty list. *)
Definition list_answer_world : world := {|
  db_file := Holds (JObj example_db);
  http := λ _, Answer (Response 200 "" (JArr []));
  worksheet_error := λ _, None;
  append_error := λ _ _, None;
  clock := "2024-05-01 12:00:00";
  sheets := ∅;
  append_calls := []
|}.

(** The lookup of [cep] in [w] returns a result that is not an error. *)
Definition lookup_succeeds (w : world) (cep : string) : Prop :=
  ∃ v, (get_address cep w).1 = Return v ∧ non_error v.

(** What the [try] block of an order does for a registered customer
    whose record is [data], with the cells [items] of the request: open
    the worksheet, read the address fields, append the row. *)
Definition record_order (w : world) (sheet_name rm : string)
    (items : list json) (data : json) : outcome json * world :=
  match worksheet_error w sheet_name with
  | Some e => (Return (order_failure e), w)
  | None =>
      match read_fields data address_fields with
      | Raise e => (Return (order_failure e), w)
      | Return cells =>
          let order := (JStr (clock w) :: items ++ cells)%list in
          match append_error w sheet_name order with
          | Some e =>
              (Return (order_failure e), log_append_call sheet_name order w)
          | None => (Return (order_made rm), appended sheet_name order w)
          end
      end
  end.

(** What an order on the worksheet [sheet_name] may change in the world:
    not the store file, at most one more recorded call of [append_row],
    which is for that worksheet, and no row of another worksheet. *)
Definition order_footprint (sheet_name : string) (w w' : world) : Prop :=
  db_file w' = db_file w
  ∧ (append_calls w' = append_calls w
     ∨ ∃ order, append_calls w' = (sheet_name, order) :: append_calls w)
  ∧ ∀ other, other ≠ sheet_name → sheets w' !! other = sheets w !! other.

Definition order_poke_11111 : PayloadMakeOrderPoke.t :=
  PayloadMakeOrderPoke.Build "11111" "M" "arroz" "manga" "cebola" "salmao"
    "shoyu" (S754_zero false).

(** The example world with a store whose one record is a string. *)
Definition text_record_world : world :=
  stored {[ "11111" := JStr "Praca da Se, 100" ]} example_world.

(** The first failure inside the [try] block of an order for the customer
    whose record is [data], with the cells [items] of the request: the
    worksheet cannot be opened, or else reading an address field of the
    record raises, or else the append of the row fails; [None] when nothing
    fails. *)
Definition try_failure (w : world) (sheet_name : string)
    (items : list json) (data : json) : option exn :=
  match worksheet_error w sheet_name with
  | Some e => Some e
  | None =>
      match read_fields data address_fields with
      | Raise e => Some e
      | Return cells =>
          append_error w sheet_name (JStr (clock w) :: items ++ cells)%list
      end
  end.

(** How an order for [rm] ends once the registration check has returned
    [check_result]: it raises nothing; it returns the error of the check
    as it is, leaving the world as it was, or, for a registered customer,
    the first failure of the [try] block as data, with the status of its
    class, or "order_made" when nothing fails. *)
Definition order_ends (w : world) (sheet_name rm : string)
    (items : list json) (check_result : json)
    (run : outcome json * world) : Prop :=
  ∃ result,
    run.1 = Return result
    ∧ ((subscript check_result "error" = Return (JBool true)
        ∧ result = check_result ∧ run.2 = w)
       ∨ ∃ data,
           check_result = registered rm data
           ∧ match try_failure w sheet_name items data with
             | Some e =>
                 result = order_failure e
                 ∧ subscript result "status"
                   = Return (JStr (failure_status e))
             | None => result = order_made rm
             end).

(** The example world with the spreadsheet service out of reach. *)
Definition sheets_out_of_reach_world : world := {|
  db_file := Holds (JObj example_db);
  http := example_http;
  worksheet_error := λ _, Some (RequestException "connection refused");
  append_error := λ _ _, None;
  clock := "2024-05-01 12:00:00";
  sheets := ∅;
  append_calls := []
|}.

(** * Properties *)

(** Unfolds the sequencing of operations so that a run can be computed. *)
Ltac run :=
  cbv beta iota delta
    [mbind M_bind mret M_ret try_except raise get_world modify_world
     read_db write_db keys response_json].

(** Evaluates the tests on values the program makes. *)
Ltac tests :=
  cbv beta iota delta
    [eq_str truthy is_None String.eqb Ascii.eqb Bool.eqb negb].

(** ** Reading the result payloads *)

Section payload_access.
Variables (w : world) (rm : string).

Lemma not_found_status :
  getitem (not_found rm) "status" w = (Return (JStr "not_found"), w).
Proof. reflexivity. Qed.

Lemma not_found_error :
  getitem (not_found rm) "error" w = (Return (JBool true), w).
Proof. reflexivity. Qed.

Lemma unregistered_address_status :
  getitem (unregistered_address rm) "status" w =
    (Return (JStr "unregistered_address"), w).
Proof. reflexivity. Qed.

Lemma unregistered_address_error :
  getitem (unregistered_address rm) "error" w = (Return (JBool true), w).
Proof. reflexivity. Qed.

Lemma registered_status record :
  getitem (registered rm record) "status" w =
    (Return (JStr "registered"), w).
Proof. reflexivity. Qed.

Lemma registered_error record :
  getitem (registered rm record) "error" w = (Return (JBool false), w).
Proof. reflexivity. Qed.

Lemma registered_data record :
  getitem (registered rm record) "data" w = (Return record, w).
Proof. reflexivity. Qed.

Lemma soft_error_error detail :
  getitem (soft_error detail) "error" w = (Return (JBool true), w).
Proof. reflexivity. Qed.

Lemma address_found_error cep rua bairro cidade estado :
  getitem (address_found cep rua bairro cidade estado) "error" w =
    (Return (JBool false), w).
Proof. reflexivity. Qed.

Lemma address_found_fields cep rua bairro cidade estado :
  ∃ data,
    getitem (address_found cep rua bairro cidade estado) "data" w =
      (Return data, w)
    ∧ getitem data "rua" w = (Return rua, w)
    ∧ getitem data "bairro" w = (Return bairro, w)
    ∧ getitem data "cidade" w = (Return cidade, w)
    ∧ getitem data "estado" w = (Return estado, w).
Proof. eexists. repeat split; reflexivity. Qed.
End payload_access.

Create Rewrite HintDb payload.
#[local] Hint Rewrite not_found_status not_found_error
  unregistered_address_status unregistered_address_error
  registered_status registered_error registered_data
  soft_error_error address_found_error : payload.

(** ** Registration check *)

Section check_registration_facts.
Variables (w : world) (db : gmap string json) (rm : string).
Hypothesis store : db_file w = Holds (JObj db).

Lemma check_absent :
  db !! rm = None → check_registration rm w = (Return (not_found rm), w).
Proof using store.
  intros Hrm. unfold check_registration. run. rewrite store. simpl.
  rewrite bool_decide_eq_false_2; [reflexivity|].
  by apply not_elem_of_dom.
Qed.

Lemma check_present v :
  db !! rm = Some v →
  check_registration rm w =
    (Return (if is_None v then unregistered_address rm
             else registered rm v), w).
Proof using store.
  intros Hrm. unfold check_registration. run. rewrite store. simpl.
  rewrite bool_decide_eq_true_2 by (apply elem_of_dom; eauto).
  simpl. rewrite Hrm. by destruct v.
Qed.

Lemma check_null :
  db !! rm = Some JNull →
  check_registration rm w = (Return (unregistered_address rm), w).
Proof using store. intros Hrm. by rewrite (check_present JNull). Qed.

Lemma check_record v :
  db !! rm = Some v → v ≠ JNull →
  check_registration rm w = (Return (registered rm v), w).
Proof using store.
  intros Hrm Hv. rewrite (check_present v) by done. by destruct v.
Qed.
End check_registration_facts.

(** C1: on a store snapshot [db], [check_registration] returns one of three
    results, fixed by the entry of the identifier: no entry gives the error
    with status "not_found", a null entry the error with status
    "unregistered_address", any other entry the result with status
    "registered" and that entry as its data; the world it returns is the
    one it started in, so the store is not modified. *)
Theorem check_registration_three_results
    (w : world) (db : gmap string json) (rm : string) :
  db_file w = Holds (JObj db) →
  check_registration rm w =
    (Return match db !! rm with
            | None => not_found rm
            | Some JNull => unregistered_address rm
            | Some record => registered rm record
            end, w).
Proof.
  intros Hdb. destruct (db !! rm) as [v|] eqn:Hrm.
  - rewrite (check_present w db rm Hdb v Hrm). by destruct v.
  - by apply (check_absent w db).
Qed.

Lemma check_registration_three_results_witness :
  check_registration "54321" example_world =
    (Return (registered "54321" se_address), example_world).
Proof.
  exact (check_registration_three_results example_world example_db "54321"
           eq_refl).
Defined.

(** ** Address lookup *)

Section get_address_facts.
Variables (w : world) (cep : string).

Lemma get_address_transport text :
  http w (lookup_url cep) = TransportFailure text →
  get_address cep w = (Return (soft_error text), w).
Proof.
  intros Hq. unfold get_address, requests_get. run. by rewrite Hq.
Qed.

Lemma get_address_http_error r :
  http w (lookup_url cep) = Answer r → error_status r = true →
  get_address cep w = (Return (soft_error (http_error_text r)), w).
Proof.
  intros Hq Hs. unfold get_address, requests_get, raise_for_status. run.
  rewrite Hq. unfold error_status in Hs. by rewrite Hs.
Qed.

Lemma get_address_erro r m :
  http w (lookup_url cep) = Answer r → error_status r = false →
  body r = JObj m → "erro" ∈ dom m →
  get_address cep w = (Return cep_not_found, w).
Proof.
  intros Hq Hs Hb He. unfold get_address, requests_get, raise_for_status.
  run. rewrite Hq. unfold error_status in Hs. rewrite Hs, Hb.
  by rewrite bool_decide_eq_true_2.
Qed.

Lemma get_address_found r m rua bairro cidade estado :
  http w (lookup_url cep) = Answer r → error_status r = false →
  body r = JObj m → "erro" ∉ dom m →
  m !! "logradouro" = Some rua → m !! "bairro" = Some bairro →
  m !! "localidade" = Some cidade → m !! "uf" = Some estado →
  get_address cep w = (Return (address_found cep rua bairro cidade estado), w).
Proof.
  intros Hq Hs Hb He H1 H2 H3 H4.
  unfold get_address, requests_get, raise_for_status, getitem, subscript.
  run. rewrite Hq. unfold error_status in Hs. rewrite Hs, Hb.
  rewrite bool_decide_eq_false_2 by done.
  by rewrite H1, H2, H3, H4.
Qed.

(** Every run of [get_address] leaves the world as it was, and ends in an
    exception, a soft error or the address. *)
Lemma get_address_cases :
  (∃ e, get_address cep w = (Raise e, w))
  ∨ (∃ detail, get_address cep w = (Return (soft_error detail), w))
  ∨ (∃ rua bairro cidade estado,
       get_address cep w =
         (Return (address_found cep rua bairro cidade estado), w)).
Proof.
  destruct (http w (lookup_url cep)) as [text|r] eqn:Hq.
  { right; left. eexists. by apply get_address_transport. }
  destruct (error_status r) eqn:Hs.
  { right; left. eexists. by apply get_address_http_error. }
  destruct (body r) as [| | | | | |m] eqn:Hb;
    try (left; eexists; unfold get_address, requests_get, raise_for_status;
         run; rewrite Hq; unfold error_status in Hs; rewrite Hs, Hb;
         reflexivity).
  destruct (decide ("erro" ∈ dom m)) as [He|He].
  { right; left. eexists. by eapply get_address_erro. }
  destruct (m !! "logradouro") as [rua|] eqn:H1;
  [destruct (m !! "bairro") as [bairro|] eqn:H2;
   [destruct (m !! "localidade") as [cidade|] eqn:H3;
    [destruct (m !! "uf") as [estado|] eqn:H4|]|]|].
  1: { right; right. exists rua, bairro, cidade, estado.
       by eapply get_address_found. }
  all: left; eexists;
    unfold get_address, requests_get, raise_for_status, getitem, subscript;
    run; rewrite Hq; unfold error_status in Hs; rewrite Hs, Hb;
    rewrite bool_decide_eq_false_2 by done;
    rewrite ?H1, ?H2, ?H3, ?H4; reflexivity.
Qed.
End get_address_facts.

(** Runs on the example worlds. *)
Example get_address_of_known_cep :
  get_address "01001000" example_world =
    (Return (address_found "01001000" (JStr "Praca da Se") (JStr "Se")
               (JStr "Sao Paulo") (JStr "SP")), example_world).
Proof. reflexivity. Qed.

Example get_address_out_of_reach :
  get_address "12345678" example_world =
    (Return (soft_error "connection refused"), example_world).
Proof. reflexivity. Qed.

(** C6 (as amended): [get_address] returns a tagged result, and raises
    nothing, whenever the lookup ends in a transport failure, in an error
    status (400 to 599), or in a JSON object that has the key [erro] or the
    four keys [logradouro], [bairro], [localidade] and [uf].  The world is
    left as it was. *)
Theorem get_address_tagged_on_orderly_answers (w : world) (cep : string) :
  orderly (http w (lookup_url cep)) →
  ∃ v, get_address cep w = (Return v, w) ∧ tagged v.
Proof.
  unfold orderly. destruct (http w (lookup_url cep)) as [text|r] eqn:Hq.
  { intros _. exists (soft_error text). split.
    - by apply get_address_transport.
    - right. by exists text. }
  destruct (error_status r) eqn:Hs.
  { intros _. exists (soft_error (http_error_text r)). split.
    - by apply get_address_http_error.
    - right. by eexists. }
  intros [?|(m & Hb & Hm)]; [done|].
  destruct (decide ("erro" ∈ dom m)) as [He|He].
  { exists cep_not_found. split.
    - by eapply get_address_erro.
    - right. by eexists. }
  destruct Hm as [?|Hm]; [done|].
  assert (is_Some (m !! "logradouro")) as [rua H1]
    by (apply elem_of_dom; set_solver).
  assert (is_Some (m !! "bairro")) as [bairro H2]
    by (apply elem_of_dom; set_solver).
  assert (is_Some (m !! "localidade")) as [cidade H3]
    by (apply elem_of_dom; set_solver).
  assert (is_Some (m !! "uf")) as [estado H4]
    by (apply elem_of_dom; set_solver).
  exists (address_found cep rua bairro cidade estado). split.
  - by eapply get_address_found.
  - left. by eexists.
Qed.

Lemma get_address_tagged_on_orderly_answers_witness :
  ∃ v, get_address "01001000" example_world = (Return v, example_world)
       ∧ tagged v.
Proof.
  apply (get_address_tagged_on_orderly_answers example_world "01001000").
  right. eexists. split; [reflexivity|]. right. set_solver.
Defined.

(** C6 (as stated) fails: the service answers with the JSON object [{}],
    status 200, and [get_address] raises a [KeyError], which its [except]
    clause does not catch. *)
Lemma get_address_raises_on_empty_object :
  http example_world (lookup_url "00000000") = Answer (Response 200 "" (JObj ∅))
  ∧ get_address "00000000" example_world =
      (Raise (KeyError "logradouro"), example_world).
Proof. split; reflexivity. Qed.

(** C9 (as amended): when the response passes [raise_for_status] (its
    status is outside 400 to 599) and its body is an object that has the
    key [erro], whatever the value under that key, [get_address] returns
    [{error: true, detail: "CEP not found."}]. *)
Theorem get_address_erro_key_presence
    (w : world) (cep : string) (r : response) (m : gmap string json) :
  http w (lookup_url cep) = Answer r →
  error_status r = false →
  body r = JObj m →
  is_Some (m !! "erro") →
  get_address cep w = (Return cep_not_found, w).
Proof.
  intros Hq Hs Hb He. eapply get_address_erro; eauto. by apply elem_of_dom.
Qed.

Lemma get_address_erro_key_presence_witness :
  get_address "99999999" example_world = (Return cep_not_found, example_world).
Proof.
  apply (get_address_erro_key_presence example_world "99999999"
           (Response 200 "" (JObj {[ "erro" := JBool true ]}))
           {[ "erro" := JBool true ]});
    [reflexivity | reflexivity | reflexivity | by eexists].
Defined.

(** C9 (as stated) fails: the body of the response has the key [erro], but
    the status is 500, and [get_address] returns the text of the HTTP error
    as its detail, not "CEP not found.". *)
Lemma get_address_erro_under_error_status :
  ∃ r m,
    http example_world (lookup_url "50000000") = Answer r
    ∧ body r = JObj m
    ∧ is_Some (m !! "erro")
    ∧ get_address "50000000" example_world =
        (Return (soft_error "500 Server Error: Internal Server Error"),
         example_world)
    ∧ get_address "50000000" example_world
        ≠ (Return cep_not_found, example_world).
Proof.
  exists (Response 500 "500 Server Error: Internal Server Error"
            (JObj {[ "erro" := JBool false ]})), {[ "erro" := JBool false ]}.
  split; [reflexivity|]. split; [reflexivity|].
  split; [by exists (JBool false)|]. split; [reflexivity|].
  intros H. apply (f_equal fst) in H. vm_compute in H. discriminate H.
Qed.

(** ** Saving an address *)

Section save_address_facts.
Variables (w : world) (db : gmap string json).
Variable payload : PayloadSaveAddress.t.
Hypothesis store : db_file w = Holds (JObj db).

Let rm := PayloadSaveAddress.rm payload.
Let cep := PayloadSaveAddress.cep payload.

Lemma save_address_absent :
  db !! rm = None → save_address payload w = (Return (not_found rm), w).
Proof using store.
  intros Hrm. unfold save_address. run. rewrite store.
  fold rm. rewrite (check_absent w db rm store Hrm).
  by autorewrite with payload.
Qed.

(** The check made by [save_address] does not stop an identifier that is
    in the store, null entry or not. *)
Lemma save_address_check_passes v :
  db !! rm = Some v →
  ∃ check_result status,
    check_registration rm w = (Return check_result, w)
    ∧ getitem check_result "status" w = (Return status, w)
    ∧ eq_str status "not_found" = false.
Proof using store.
  intros Hrm. rewrite (check_present w db rm store v Hrm).
  destruct (is_None v).
  - exists (unregistered_address rm), (JStr "unregistered_address").
    by autorewrite with payload.
  - exists (registered rm v), (JStr "registered").
    by autorewrite with payload.
Qed.

(** With the identifier in the store, the save goes on to the lookup and
    ends as the lookup does. *)
Lemma save_address_lookup_raises e :
  is_Some (db !! rm) → get_address cep w = (Raise e, w) →
  save_address payload w = (Raise e, w).
Proof using store.
  intros [v Hrm] Hq.
  destruct (save_address_check_passes v Hrm) as (c & st & Hc & Hst & Hne).
  unfold save_address. run. rewrite store. fold rm cep.
  by rewrite Hc, Hst, Hne, Hq.
Qed.

Lemma save_address_lookup_soft_error detail :
  is_Some (db !! rm) →
  get_address cep w = (Return (soft_error detail), w) →
  save_address payload w = (Return (soft_error detail), w).
Proof using store.
  intros [v Hrm] Hq.
  destruct (save_address_check_passes v Hrm) as (c & st & Hc & Hst & Hne).
  unfold save_address. run. rewrite store. fold rm cep.
  rewrite Hc, Hst, Hne, Hq. by autorewrite with payload.
Qed.

Lemma save_address_lookup_found rua bairro cidade estado :
  is_Some (db !! rm) →
  get_address cep w =
    (Return (address_found cep rua bairro cidade estado), w) →
  save_address payload w =
    (Return (updated rm),
     stored (<[rm := JObj (merged_record payload rua bairro cidade estado)]>
               db) w).
Proof using store.
  intros [v Hrm] Hq.
  destruct (save_address_check_passes v Hrm) as (c & st & Hc & Hst & Hne).
  destruct (address_found_fields w cep rua bairro cidade estado)
    as (data & Hd & H1 & H2 & H3 & H4).
  unfold save_address. run. rewrite store. fold rm cep.
  rewrite Hc, Hst, Hne, Hq. autorewrite with payload. tests.
  by rewrite Hd, H1, Hd, H2, Hd, H3, Hd, H4.
Qed.

(** A lookup result that is not an error is the address. *)
Lemma get_address_non_error address_details w1 :
  get_address cep w = (Return address_details, w1) →
  non_error address_details →
  w1 = w
  ∧ ∃ rua bairro cidade estado,
      address_details = address_found cep rua bairro cidade estado.
Proof.
  intros Hq (m & -> & Herr).
  destruct (get_address_cases w cep)
    as [[e He]|[[d Hd]|(rua & bairro & cidade & estado & Hf)]].
  - congruence.
  - rewrite Hd in Hq.
    assert (soft_error d = JObj m) as Hm by congruence.
    injection Hm as <-. discriminate Herr.
  - rewrite Hf in Hq. split; [congruence|].
    exists rua, bairro, cidade, estado. congruence.
Qed.

(** What a save returns when the identifier is in the store. *)
Lemma save_address_present_cases :
  is_Some (db !! rm) →
  (∃ e, save_address payload w = (Raise e, w))
  ∨ (∃ detail, save_address payload w = (Return (soft_error detail), w))
  ∨ (∃ rua bairro cidade estado,
       save_address payload w =
         (Return (updated rm),
          stored (<[rm := JObj (merged_record payload rua bairro cidade
                                  estado)]> db) w)).
Proof using store.
  intros Hrm.
  destruct (get_address_cases w cep)
    as [[e He]|[[d Hd]|(rua & bairro & cidade & estado & Hf)]].
  - left. exists e. by apply save_address_lookup_raises.
  - right; left. exists d. by apply save_address_lookup_soft_error.
  - right; right. exists rua, bairro, cidade, estado.
    by apply save_address_lookup_found.
Qed.
End save_address_facts.

(** Two dicts that differ under one key are different values. *)
Lemma JObj_ne_at (k : string) (m1 m2 : gmap string json) :
  m1 !! k ≠ m2 !! k → JObj m1 ≠ JObj m2.
Proof. intros Hk [= ->]. by apply Hk. Qed.

Lemma soft_error_no_status detail :
  ∀ m, soft_error detail = JObj m → m !! "status" = None.
Proof. intros m [= <-]. reflexivity. Qed.

(** C2: the identifier is in the store, with a null entry or a record, and
    the lookup of the postal code returns a result that is not an error.
    Then [save_address] writes the store with the entry of the identifier
    replaced by the record that merges the address of the lookup with the
    house number and the name of the request, it returns the result with
    status "updated", and [check_registration], run next, returns
    "registered" with that record. *)
Theorem save_address_then_registered
    (w : world) (db : gmap string json) (payload : PayloadSaveAddress.t)
    (address_details : json) (w1 : world) :
  let rm := PayloadSaveAddress.rm payload in
  let cep := PayloadSaveAddress.cep payload in
  db_file w = Holds (JObj db) →
  is_Some (db !! rm) →
  get_address cep w = (Return address_details, w1) →
  non_error address_details →
  ∃ rua bairro cidade estado,
    let record := JObj (merged_record payload rua bairro cidade estado) in
    let w' := stored (<[rm := record]> db) w in
    address_details = address_found cep rua bairro cidade estado
    ∧ save_address payload w = (Return (updated rm), w')
    ∧ db_file w' = Holds (JObj (<[rm := record]> db))
    ∧ check_registration rm w' = (Return (registered rm record), w').
Proof.
  intros rm cep Hdb Hrm Hq Hok.
  destruct (get_address_non_error w payload address_details w1 Hq Hok)
    as (-> & rua & bairro & cidade & estado & ->).
  exists rua, bairro, cidade, estado. cbv zeta.
  split; [reflexivity|]. split; [by apply save_address_lookup_found|].
  split; [reflexivity|].
  eapply check_record; [reflexivity| |done].
  apply lookup_insert_eq.
Qed.

Lemma save_address_then_registered_witness :
  ∃ rua bairro cidade estado,
    let record := JObj (merged_record save_ana rua bairro cidade estado) in
    let w' := stored (<["12345" := record]> example_db) example_world in
    address_found "01001000" (JStr "Praca da Se") (JStr "Se")
      (JStr "Sao Paulo") (JStr "SP")
    = address_found "01001000" rua bairro cidade estado
    ∧ save_address save_ana example_world = (Return (updated "12345"), w')
    ∧ db_file w' = Holds (JObj (<["12345" := record]> example_db))
    ∧ check_registration "12345" w' = (Return (registered "12345" record), w').
Proof.
  apply (save_address_then_registered example_world example_db save_ana
           (address_found "01001000" (JStr "Praca da Se") (JStr "Se")
              (JStr "Sao Paulo") (JStr "SP")) example_world).
  - reflexivity.
  - by exists JNull.
  - reflexivity.
  - eexists. split; reflexivity.
Defined.

(** C3: for an identifier that is not in the store, [save_address] returns
    the "not_found" payload and the world it leaves, the store with it, is
    the one it started in: nothing is written. *)
Theorem save_address_unknown_identifier
    (w : world) (db : gmap string json) (payload : PayloadSaveAddress.t) :
  let rm := PayloadSaveAddress.rm payload in
  db_file w = Holds (JObj db) →
  db !! rm = None →
  save_address payload w = (Return (not_found rm), w).
Proof. intros rm Hdb Hrm. by apply (save_address_absent w db). Qed.

Lemma save_address_unknown_identifier_witness :
  save_address (PayloadSaveAddress.Build "77777" "01001000" 1 "Bia")
    example_world
  = (Return (not_found "77777"), example_world).
Proof.
  apply (save_address_unknown_identifier example_world example_db
           (PayloadSaveAddress.Build "77777" "01001000" 1 "Bia"));
    reflexivity.
Defined.

(** The payloads of the registration check differ from what the lookup and
    the write return: those have no "status" or the status "updated". *)
Lemma save_result_not_check_error (rm : string) (v : json) :
  (∃ detail, v = soft_error detail) ∨ v = updated rm →
  v ≠ not_found rm ∧ v ≠ unregistered_address rm.
Proof.
  intros [[detail ->]| ->]; split;
    by apply (JObj_ne_at "status").
Qed.

(** C4: for an identifier whose entry in the store is null, [save_address]
    goes on to the lookup of the postal code: a soft error of the lookup is
    what it returns, and when the lookup finds the address it writes the
    merged record and returns "updated"; in no case does it return the
    error of the registration check.  Only an absent identifier stops the
    save: when [save_address] returns the "not_found" payload, the
    identifier has no entry. *)
Theorem save_address_unregistered_proceeds
    (w : world) (db : gmap string json) (payload : PayloadSaveAddress.t) :
  let rm := PayloadSaveAddress.rm payload in
  let cep := PayloadSaveAddress.cep payload in
  db_file w = Holds (JObj db) →
  (db !! rm = Some JNull →
     check_registration rm w = (Return (unregistered_address rm), w)
     ∧ (∀ w', save_address payload w
              ≠ (Return (unregistered_address rm), w'))
     ∧ (∀ detail,
          get_address cep w = (Return (soft_error detail), w) →
          save_address payload w = (Return (soft_error detail), w))
     ∧ (∀ rua bairro cidade estado,
          get_address cep w =
            (Return (address_found cep rua bairro cidade estado), w) →
          save_address payload w =
            (Return (updated rm),
             stored (<[rm := JObj (merged_record payload rua bairro cidade
                                     estado)]> db) w)))
  ∧ (∀ w', save_address payload w = (Return (not_found rm), w') →
           db !! rm = None).
Proof.
  intros rm cep Hdb. split.
  - intros Hrm. assert (is_Some (db !! rm)) as Hin by eauto.
    split; [by apply (check_null w db)|]. split; [|split].
    + intros w' Hs.
      destruct (save_address_present_cases w db payload Hdb Hin)
        as [[e He]|[[d Hd]|(rua & bairro & cidade & estado & Hu)]].
      * congruence.
      * rewrite Hd in Hs.
        destruct (save_result_not_check_error rm (soft_error d)) as [_ Hn];
          [eauto|]. congruence.
      * fold rm in Hu. rewrite Hu in Hs.
        destruct (save_result_not_check_error rm (updated rm)) as [_ Hn];
          [eauto|]. congruence.
    + intros detail Hq. by apply (save_address_lookup_soft_error w db).
    + intros rua bairro cidade estado Hq.
      by apply (save_address_lookup_found w db).
  - intros w' Hs. destruct (db !! rm) as [v|] eqn:Hrm; [|done].
    assert (is_Some (db !! rm)) as Hin by eauto.
    destruct (save_address_present_cases w db payload Hdb Hin)
      as [[e He]|[[d Hd]|(rua & bairro & cidade & estado & Hu)]].
    + congruence.
    + rewrite Hd in Hs.
      destruct (save_result_not_check_error rm (soft_error d)) as [Hn _];
        [eauto|]. congruence.
    + fold rm in Hu. rewrite Hu in Hs.
      destruct (save_result_not_check_error rm (updated rm)) as [Hn _];
        [eauto|]. congruence.
Qed.

Lemma save_address_unregistered_proceeds_witness :
  save_address save_ana example_world =
    (Return (updated "12345"),
     stored (<["12345" := JObj (merged_record save_ana (JStr "Praca da Se")
                                  (JStr "Se") (JStr "Sao Paulo")
                                  (JStr "SP"))]> example_db)
       example_world).
Proof.
  destruct (save_address_unregistered_proceeds example_world example_db
              save_ana eq_refl) as [Hnull _].
  destruct (Hnull eq_refl) as (_ & _ & _ & Hfound).
  apply Hfound. reflexivity.
Defined.

(** C10: when [save_address] returns a result that is not an error, the
    store it leaves is the store it found with the entry of the identifier
    of the request replaced by the merged record: every other entry is as
    before.  The keys of the record are cep, rua, bairro, cidade, estado,
    numero and nome, and its cep is the postal code of the request. *)
Theorem save_address_replaces_one_entry
    (w w' : world) (db : gmap string json) (payload : PayloadSaveAddress.t)
    (result : json) :
  let rm := PayloadSaveAddress.rm payload in
  db_file w = Holds (JObj db) →
  save_address payload w = (Return result, w') →
  non_error result →
  ∃ rua bairro cidade estado,
    let record := merged_record payload rua bairro cidade estado in
    db_file w' = Holds (JObj (<[rm := JObj record]> db))
    ∧ w' = stored (<[rm := JObj record]> db) w
    ∧ (∀ other, other ≠ rm →
         (<[rm := JObj record]> db) !! other = db !! other)
    ∧ dom record =
        {[ "cep"; "rua"; "bairro"; "cidade"; "estado"; "numero"; "nome" ]}
    ∧ record !! "cep" = Some (JStr (PayloadSaveAddress.cep payload)).
Proof.
  intros rm Hdb Hs (m & -> & Herr).
  destruct (db !! rm) as [v|] eqn:Hrm.
  - assert (is_Some (db !! rm)) as Hin by eauto.
    destruct (save_address_present_cases w db payload Hdb Hin)
      as [[e He]|[[d Hd]|(rua & bairro & cidade & estado & Hu)]].
    + congruence.
    + rewrite Hd in Hs.
      assert (soft_error d = JObj m) as Hm by congruence.
      injection Hm as <-. discriminate Herr.
    + fold rm in Hu. rewrite Hu in Hs.
      exists rua, bairro, cidade, estado. cbv zeta.
      pose proof (f_equal snd Hs) as Hw. cbn [snd] in Hw. subst w'.
      split; [reflexivity|]. split; [reflexivity|].
      split; [intros other Hne; by apply lookup_insert_ne|].
      split; [|reflexivity].
      unfold merged_record. rewrite !dom_insert_L, dom_singleton_L.
      set_solver.
  - rewrite (save_address_absent w db payload Hdb Hrm) in Hs.
    assert (not_found (PayloadSaveAddress.rm payload) = JObj m) as Hm
      by congruence.
    injection Hm as <-. discriminate Herr.
Qed.

Lemma save_address_replaces_one_entry_witness :
  ∃ rua bairro cidade estado,
    let record := merged_record save_ana rua bairro cidade estado in
    let db' := <["12345" := JObj record]> example_db in
    db_file (stored (<["12345" :=
                         JObj (merged_record save_ana (JStr "Praca da Se")
                                 (JStr "Se") (JStr "Sao Paulo")
                                 (JStr "SP"))]> example_db) example_world)
      = Holds (JObj db')
    ∧ stored (<["12345" :=
                  JObj (merged_record save_ana (JStr "Praca da Se")
                          (JStr "Se") (JStr "Sao Paulo") (JStr "SP"))]>
                example_db) example_world
      = stored db' example_world
    ∧ (∀ other, other ≠ "12345" → db' !! other = example_db !! other)
    ∧ dom record =
        {[ "cep"; "rua"; "bairro"; "cidade"; "estado"; "numero"; "nome" ]}
    ∧ record !! "cep" = Some (JStr "01001000").
Proof.
  apply (save_address_replaces_one_entry example_world _ example_db save_ana
           (updated "12345")).
  - reflexivity.
  - reflexivity.
  - eexists. split; reflexivity.
Defined.

(** ** Orders *)

Lemma order_handler_returns (e : exn) (w : world) :
  order_handler e w = (Return (order_failure e), w).
Proof. by destruct e. Qed.

Lemma order_failure_status (e : exn) :
  subscript (order_failure e) "status" = Return (JStr (failure_status e)).
Proof. by destruct e. Qed.

(** The spy on the worksheet: a call of [append_row] is always recorded,
    whether the append goes through or fails. *)
Lemma append_row_recorded (sheet : string) (order : row) (w : world) :
  append_calls (append_row sheet order w).2 = (sheet, order) :: append_calls w.
Proof.
  unfold append_row. run. cbn [log_append_call append_error].
  by destruct (append_error w sheet order).
Qed.

Lemma null_or_not (v : json) : v = JNull ∨ v ≠ JNull.
Proof. destruct v; (by left) || (by right). Qed.

Section order_facts.
Variables (w : world) (db : gmap string json).
Hypothesis store : db_file w = Holds (JObj db).

Lemma make_order_tech_unregistered payload sheet_name :
  let rm := PayloadMakeOrderTech.rm payload in
  db !! rm = None ∨ db !! rm = Some JNull →
  ∃ check_result,
    check_registration rm w = (Return check_result, w)
    ∧ make_order_tech payload sheet_name w = (Return check_result, w).
Proof using store.
  intros rm [Hrm|Hrm]; eexists; (split; [|unfold make_order_tech; run]).
  - by apply (check_absent w db).
  - fold rm. rewrite (check_absent w db rm store Hrm).
    by autorewrite with payload.
  - by apply (check_null w db).
  - fold rm. rewrite (check_null w db rm store Hrm).
    by autorewrite with payload.
Qed.

Lemma make_order_poke_unregistered payload sheet_name :
  let rm := PayloadMakeOrderPoke.rm payload in
  db !! rm = None ∨ db !! rm = Some JNull →
  ∃ check_result,
    check_registration rm w = (Return check_result, w)
    ∧ make_order_poke payload sheet_name w = (Return check_result, w).
Proof using store.
  intros rm [Hrm|Hrm]; eexists; (split; [|unfold make_order_poke; run]).
  - by apply (check_absent w db).
  - fold rm. rewrite (check_absent w db rm store Hrm).
    by autorewrite with payload.
  - by apply (check_null w db).
  - fold rm. rewrite (check_null w db rm store Hrm).
    by autorewrite with payload.
Qed.

End order_facts.

(** A run on the example world: the order of a registered customer adds
    one row to the worksheet and records one call of [append_row]. *)
Example order_of_registered_customer :
  let '(result, w') :=
    make_order_tech order_tech_54321 tech_store_sheet_name example_world in
  result = Return (order_made "54321")
  ∧ length (append_calls w') = 1%nat
  ∧ length <$> sheets w' !! "Tech Store" = Some 1%nat.
Proof. vm_compute. by repeat split. Qed.

Example order_with_missing_field :
  make_order_tech order_tech_11111 tech_store_sheet_name partial_record_world
  = (Return (JObj {[ "error" := JBool true;
                     "status" := JStr "missing_data";
                     "detail" := JStr
                       "Missing data in address details: 'rua'" ]}),
     partial_record_world).
Proof. reflexivity. Qed.

Example order_with_sheets_refused :
  make_order_poke order_poke_54321 poke_store_sheet_name sheets_refused_world
  = (Return (JObj {[ "error" := JBool true;
                     "status" := JStr "api_error";
                     "detail" := JStr
                       ("Error occurred while accessing Google Sheets API: "
                        +:+ "403 PERMISSION_DENIED") ]}),
     sheets_refused_world).
Proof. reflexivity. Qed.

(** C5: the identifier of an order, tech or poke, is not registered: it
    has no entry in the store, or a null entry.  Then the order returns the
    very result of [check_registration], and the world it leaves is the one
    it started in: no call of [append_row] is recorded. *)
Theorem order_for_unregistered_identifier
    (w : world) (db : gmap string json) (rm : string) :
  db_file w = Holds (JObj db) →
  db !! rm = None ∨ db !! rm = Some JNull →
  ∃ check_result,
    check_registration rm w = (Return check_result, w)
    ∧ subscript check_result "error" = Return (JBool true)
    ∧ (∀ payload sheet_name,
         PayloadMakeOrderTech.rm payload = rm →
         make_order_tech payload sheet_name w = (Return check_result, w)
         ∧ append_calls (make_order_tech payload sheet_name w).2
           = append_calls w)
    ∧ (∀ payload sheet_name,
         PayloadMakeOrderPoke.rm payload = rm →
         make_order_poke payload sheet_name w = (Return check_result, w)
         ∧ append_calls (make_order_poke payload sheet_name w).2
           = append_calls w).
Proof.
  intros Hdb Hrm.
  assert (∃ c, check_registration rm w = (Return c, w)
               ∧ subscript c "error" = Return (JBool true))
    as (c & Hc & Herr).
  { destruct Hrm as [Hrm|Hrm]; eexists; split;
      [by apply (check_absent w db) | reflexivity
      |by apply (check_null w db) | reflexivity]. }
  exists c. split; [done|]. split; [done|]. split.
  - intros payload sheet_name <-.
    destruct (make_order_tech_unregistered w db Hdb payload sheet_name Hrm)
      as (c' & Hc' & Ho).
    rewrite Ho. split; [congruence|reflexivity].
  - intros payload sheet_name <-.
    destruct (make_order_poke_unregistered w db Hdb payload sheet_name Hrm)
      as (c' & Hc' & Ho).
    rewrite Ho. split; [congruence|reflexivity].
Qed.

Lemma order_for_unregistered_identifier_witness :
  ∃ check_result,
    check_registration "12345" example_world
      = (Return check_result, example_world)
    ∧ subscript check_result "error" = Return (JBool true)
    ∧ (∀ payload sheet_name,
         PayloadMakeOrderTech.rm payload = "12345" →
         make_order_tech payload sheet_name example_world
           = (Return check_result, example_world)
         ∧ append_calls (make_order_tech payload sheet_name example_world).2
           = append_calls example_world)
    ∧ (∀ payload sheet_name,
         PayloadMakeOrderPoke.rm payload = "12345" →
         make_order_poke payload sheet_name example_world
           = (Return check_result, example_world)
         ∧ append_calls (make_order_poke payload sheet_name example_world).2
           = append_calls example_world).
Proof.
  apply (order_for_unregistered_identifier example_world example_db "12345").
  - reflexivity.
  - right. reflexivity.
Defined.

(** C7 (as stated) fails: the store file is missing, the read made by the
    registration check raises before the [try] block is entered, and the
    exception leaves both order operations.  So it does when the file holds
    a list: the check raises at [db.keys()].  And a failure of the
    spreadsheet service that is not an [APIError], here the service out of
    reach, is returned with status "unknown_error", not "api_error". *)
Lemma order_raises_when_store_unreadable :
  make_order_tech order_tech_54321 tech_store_sheet_name no_store_world
    = (Raise (OtherException "FileNotFoundError"
                "[Errno 2] No such file or directory"), no_store_world)
  ∧ make_order_poke order_poke_54321 poke_store_sheet_name no_store_world
    = (Raise (OtherException "FileNotFoundError"
                "[Errno 2] No such file or directory"), no_store_world)
  ∧ make_order_tech order_tech_54321 tech_store_sheet_name list_store_world
    = (Raise (OtherException "AttributeError"
                "'list' object has no attribute 'keys'"), list_store_world)
  ∧ make_order_tech order_tech_54321 tech_store_sheet_name
      sheets_out_of_reach_world
    = (Return (JObj {[ "error" := JBool true;
                       "status" := JStr "unknown_error";
                       "detail" := JStr
                         "An unknown error occurred: connection refused" ]}),
       sheets_out_of_reach_world).
Proof. repeat split; reflexivity. Qed.

(** ** Dispatch *)

Lemma action_in_mapping (i : input_data) :
  action i ∈ dom input_model_mapping.
Proof.
  unfold input_model_mapping. rewrite !dom_insert_L, dom_singleton_L.
  destruct i; cbn [action literal model_of]; set_solver.
Qed.

(** The dispatcher runs the operation of the class of its input: the two
    "Invalid action" returns and the reads of a missing attribute are
    taken by no input. *)
Lemma api_endpoint_dispatch (i : input_data) :
  api_endpoint i =
    match i with
    | InputGetAddress p =>
        result ← get_address (PayloadGetAddress.cep p);
        mret (wrapped "get_address" result)
    | InputSaveAddress p =>
        result ← save_address p; mret (wrapped "save_address" result)
    | InputCheckRegistration p =>
        result ← check_registration (PayloadCheckRegistration.rm p);
        mret (wrapped "check_registration" result)
    | InputMakeOrderTech p =>
        result ← make_order_tech p tech_store_sheet_name;
        mret (wrapped "make_order_tech" result)
    | InputMakeOrderPoke p =>
        result ← make_order_poke p poke_store_sheet_name;
        mret (wrapped "make_order_poke" result)
    end.
Proof.
  unfold api_endpoint.
  rewrite (bool_decide_eq_true_2 _ (action_in_mapping i)).
  by destruct i.
Qed.

Lemma api_endpoint_wraps (i : input_data) (w w' : world) (result : json) :
  api_endpoint i w = (Return result, w') →
  ∃ payload, result = wrapped (action i) payload.
Proof.
  unfold api_endpoint.
  rewrite (bool_decide_eq_true_2 _ (action_in_mapping i)).
  destruct i; cbn [action literal model_of negb]; tests; run.
  - destruct (get_address _ w) as [[r|e] w1]; intros [= <- <-]; eauto.
  - destruct (save_address p w) as [[r|e] w1]; intros [= <- <-]; eauto.
  - destruct (check_registration _ w) as [[r|e] w1]; intros [= <- <-]; eauto.
  - destruct (make_order_tech p _ w) as [[r|e] w1]; intros [= <- <-]; eauto.
  - destruct (make_order_poke p _ w) as [[r|e] w1]; intros [= <- <-]; eauto.
Qed.

Lemma validate_action_unknown (fields : gmap string json) (a : json) :
  fields !! "action" = Some a → ¬ known_action a →
  ∀ m, validate_action m fields = false.
Proof.
  intros Ha Hun m. unfold validate_action. rewrite Ha.
  destruct a as [| | | |s| |]; try reflexivity.
  cbn [eq_str]. apply String.eqb_neq. intros ->. apply Hun. by exists m.
Qed.

Lemma validate_input_unknown (V : validation) (fields : gmap string json)
    (a : json) :
  fields !! "action" = Some a → ¬ known_action a →
  validate_input V (JObj fields) = None.
Proof.
  intros Ha Hun. unfold validate_input, union_members, validate_model.
  cbn [omap list_omap].
  by rewrite !(validate_action_unknown fields a Ha Hun).
Qed.

(** C8 (as amended): a request whose [action] is given and is not one of
    the five known actions does not reach the dispatcher: the validation
    of the body against the five input classes rejects it, the caller gets
    the validation error and no operation runs.  The inputs the dispatcher
    receives carry an action of its mapping, and each of its results is
    wrapped as [{action, response_payload}]. *)
Theorem unknown_action_rejected_by_validation
    (V : validation) (fields : gmap string json) (a : json) (w : world) :
  fields !! "action" = Some a →
  ¬ known_action a →
  post V (JObj fields) w = (Return ValidationError, w)
  ∧ (∀ i, action i ∈ dom input_model_mapping)
  ∧ (∀ i w1 w2 result,
       api_endpoint i w1 = (Return result, w2) →
       ∃ payload, result = wrapped (action i) payload).
Proof.
  intros Ha Hun. split; [|split].
  - unfold post. by rewrite (validate_input_unknown V fields a Ha Hun).
  - apply action_in_mapping.
  - intros i w1 w2 result. apply api_endpoint_wraps.
Qed.

Lemma unknown_action_rejected_by_validation_witness :
  post plain_validation remove_address_request example_world
    = (Return ValidationError, example_world)
  ∧ (∀ i, action i ∈ dom input_model_mapping)
  ∧ (∀ i w1 w2 result,
       api_endpoint i w1 = (Return result, w2) →
       ∃ payload, result = wrapped (action i) payload).
Proof.
  apply (unknown_action_rejected_by_validation plain_validation
           {[ "action" := JStr "remove_address"; "rm" := JStr "12345" ]}
           (JStr "remove_address") example_world).
  - reflexivity.
  - intros [m Hm]. by destruct m.
Defined.

(** C8 (as stated) fails: the action of the request is none of the five,
    and the caller gets the validation error, not the "Invalid action"
    payload; a request with a known action goes through. *)
Lemma unknown_action_gets_validation_error :
  post plain_validation remove_address_request example_world
    = (Return ValidationError, example_world)
  ∧ post plain_validation remove_address_request example_world
    ≠ (Return (Content (wrapped "remove_address" invalid_action)),
       example_world)
  ∧ post plain_validation check_54321_request example_world
    = (Return (Content (wrapped "check_registration"
                          (registered "54321" se_address))),
       example_world).
Proof.
  split; [reflexivity|]. split; [|reflexivity].
  intros H. apply (f_equal fst) in H. vm_compute in H. discriminate H.
Qed.

(** * Further properties of the operations *)

(** ** The registration check in any world *)

Lemma check_registration_unreadable (rm : string) (w : world) (e : exn) :
  db_file w = Unreadable e → check_registration rm w = (Raise e, w).
Proof. intros Hf. unfold check_registration. run. by rewrite Hf. Qed.

Lemma check_registration_not_dict (rm : string) (w : world) (v : json) :
  db_file w = Holds v → (∀ m, v ≠ JObj m) →
  check_registration rm w =
    (Raise (OtherException "AttributeError"
              ("'" +:+ type_name v +:+ "' object has no attribute 'keys'")),
     w).
Proof.
  intros Hf Hv. unfold check_registration. run. rewrite Hf.
  destruct v; try reflexivity. by destruct (Hv m).
Qed.

Lemma json_dict_or_not (v : json) : (∃ m, v = JObj m) ∨ (∀ m, v ≠ JObj m).
Proof. destruct v; (by left; eexists) || (by right). Qed.

Lemma check_registration_frame (rm : string) (w : world) :
  (check_registration rm w).2 = w.
Proof.
  destruct (db_file w) as [v|e] eqn:Hf.
  - destruct (json_dict_or_not v) as [[m ->]|Hv].
    + destruct (m !! rm) as [x|] eqn:Hrm.
      * by rewrite (check_present w m rm Hf x Hrm).
      * by rewrite (check_absent w m rm Hf Hrm).
    + by rewrite (check_registration_not_dict rm w v Hf Hv).
  - by rewrite (check_registration_unreadable rm w e Hf).
Qed.

(** X1: whatever the store file holds, and whatever it returns or raises,
    [check_registration] leaves the world as it found it. *)
Theorem check_registration_leaves_world (rm : string) (w : world) :
  (check_registration rm w).2 = w.
Proof. apply check_registration_frame. Qed.

(** X2: when the store file cannot be loaded, [check_registration] raises
    what the load raised; nothing catches it. *)
Theorem check_registration_store_unreadable
    (rm : string) (w : world) (e : exn) :
  db_file w = Unreadable e → check_registration rm w = (Raise e, w).
Proof. apply check_registration_unreadable. Qed.

Lemma check_registration_store_unreadable_witness :
  check_registration "54321" no_store_world =
    (Raise (OtherException "FileNotFoundError"
              "[Errno 2] No such file or directory"), no_store_world).
Proof.
  apply (check_registration_store_unreadable "54321" no_store_world).
  reflexivity.
Defined.

(** X3: when the store file holds a JSON document that is not an object,
    [check_registration] raises an [AttributeError] at [db.keys()]. *)
Theorem check_registration_store_not_a_mapping
    (rm : string) (w : world) (v : json) :
  db_file w = Holds v → (∀ m, v ≠ JObj m) →
  ∃ text,
    check_registration rm w = (Raise (OtherException "AttributeError" text), w).
Proof.
  intros Hf Hv. eexists. by apply check_registration_not_dict.
Qed.

Lemma check_registration_store_not_a_mapping_witness :
  ∃ text,
    check_registration "54321" list_store_world =
      (Raise (OtherException "AttributeError" text), list_store_world).
Proof.
  apply (check_registration_store_not_a_mapping "54321" list_store_world
           (JArr [])); [reflexivity|done].
Defined.

(** ** The address lookup and the world *)

(** The result of a lookup depends on the world only through the answer of
    the service to the url of the postal code. *)
Lemma get_address_only_http (cep : string) (w1 w2 : world) :
  http w1 (lookup_url cep) = http w2 (lookup_url cep) →
  (get_address cep w1).1 = (get_address cep w2).1.
Proof.
  intros Hq.
  unfold get_address, requests_get, raise_for_status, getitem, subscript.
  run. rewrite Hq.
  destruct (http w2 (lookup_url cep)) as [text|r]; [reflexivity|].
  destruct ((400 <=? status_code r) && (status_code r <? 600))%Z;
    [reflexivity|].
  destruct (body r) as [| | | | | |m]; try reflexivity.
  destruct (bool_decide ("erro" ∈ dom m)); [reflexivity|].
  destruct (m !! "logradouro"); [|reflexivity].
  destruct (m !! "bairro"); [|reflexivity].
  destruct (m !! "localidade"); [|reflexivity].
  destruct (m !! "uf"); reflexivity.
Qed.

Lemma get_address_frame (cep : string) (w : world) :
  (get_address cep w).2 = w.
Proof.
  destruct (get_address_cases w cep)
    as [[e ->]|[[d ->]|(rua & bairro & cidade & estado & ->)]]; reflexivity.
Qed.

Lemma get_address_set_db_file (cep : string) (f : file_state) (w : world) :
  get_address cep (set_db_file f w) =
    ((get_address cep w).1, set_db_file f w).
Proof.
  rewrite (surjective_pairing (get_address cep (set_db_file f w))).
  rewrite get_address_frame. f_equal. by apply get_address_only_http.
Qed.

(** X4: [get_address] leaves the world as it found it, and the store file
    has no part in its result: with any other content of the file the
    lookup ends the same way. *)
Theorem get_address_leaves_world_and_ignores_store
    (cep : string) (f : file_state) (w : world) :
  (get_address cep w).2 = w
  ∧ get_address cep (set_db_file f w)
    = ((get_address cep w).1, set_db_file f w).
Proof.
  split; [apply get_address_frame | apply get_address_set_db_file].
Qed.

(** X5: a transport failure and an error status both come back as a soft
    error whose detail is the text of the exception. *)
Theorem get_address_soft_error_carries_text (cep : string) (w : world) :
  match http w (lookup_url cep) with
  | TransportFailure text =>
      get_address cep w = (Return (soft_error text), w)
  | Answer r =>
      error_status r = true →
      get_address cep w = (Return (soft_error (http_error_text r)), w)
  end.
Proof.
  destruct (http w (lookup_url cep)) as [text|r] eqn:Hq.
  - by apply get_address_transport.
  - intros Hs. by apply get_address_http_error.
Qed.

Lemma get_address_soft_error_carries_text_witness :
  get_address "50000000" example_world =
    (Return (soft_error "500 Server Error: Internal Server Error"),
     example_world).
Proof.
  exact (get_address_soft_error_carries_text "50000000" example_world
           eq_refl).
Defined.

Lemma soft_error_is_error (detail : string) : ¬ non_error (soft_error detail).
Proof.
  intros (m & Hm & Herr). injection Hm as <-. discriminate Herr.
Qed.

Lemma address_found_non_error (cep : string) (rua bairro cidade estado : json) :
  non_error (address_found cep rua bairro cidade estado).
Proof. eexists. split; reflexivity. Qed.

Lemma first_missing_none (m : gmap string json) (ks : list string) :
  first_missing m ks = None → ∀ k, k ∈ ks → is_Some (m !! k).
Proof.
  induction ks as [|k' ks IH]; cbn [first_missing].
  - intros _ k Hk. by apply elem_of_nil in Hk.
  - destruct (m !! k') as [x|] eqn:Hk'; [|done].
    intros Hks k [->|Hk]%elem_of_cons; [eauto|by apply IH].
Qed.

Section get_address_answers.
Variables (w : world) (cep : string) (r : response).
Hypothesis answer : http w (lookup_url cep) = Answer r.
Hypothesis status : error_status r = false.

Lemma get_address_body_not_object :
  (∀ m, body r ≠ JObj m) →
  get_address cep w =
    (Raise (OtherException "AttributeError"
              ("'" +:+ type_name (body r) +:+
               "' object has no attribute 'keys'")), w).
Proof using answer status.
  intros Hb. unfold get_address, requests_get, raise_for_status. run.
  rewrite answer. unfold error_status in status. rewrite status.
  destruct (body r) as [| | | | | |m]; try reflexivity. by destruct (Hb m).
Qed.

Lemma get_address_missing m k :
  body r = JObj m → "erro" ∉ dom m →
  first_missing m lookup_fields = Some k →
  get_address cep w = (Raise (KeyError k), w).
Proof using answer status.
  intros Hb He Hk.
  unfold get_address, requests_get, raise_for_status, getitem, subscript.
  run. rewrite answer. unfold error_status in status. rewrite status, Hb.
  rewrite bool_decide_eq_false_2 by done.
  cbn [first_missing lookup_fields] in Hk.
  destruct (m !! "logradouro"); [|by injection Hk as <-].
  destruct (m !! "bairro"); [|by injection Hk as <-].
  destruct (m !! "localidade"); [|by injection Hk as <-].
  destruct (m !! "uf"); [done|by injection Hk as <-].
Qed.
End get_address_answers.

(** X6: the service answers, with a status that is no error, a JSON
    object that has not the key [erro] and lacks one of the four address
    keys: [get_address] raises a [KeyError] for the first of logradouro,
    bairro, localidade, uf that is missing, and the exception leaves the
    function. *)
Theorem get_address_missing_key_raises
    (w : world) (cep : string) (r : response) (m : gmap string json)
    (k : string) :
  http w (lookup_url cep) = Answer r →
  error_status r = false →
  body r = JObj m →
  "erro" ∉ dom m →
  first_missing m lookup_fields = Some k →
  get_address cep w = (Raise (KeyError k), w).
Proof. intros. by eapply get_address_missing. Qed.

Lemma get_address_missing_key_raises_witness :
  get_address "01001000" half_answer_world =
    (Raise (KeyError "localidade"), half_answer_world).
Proof.
  apply (get_address_missing_key_raises half_answer_world "01001000"
           (Response 200 "" (JObj {[ "logradouro" := JStr "Praca da Se";
                                     "bairro" := JStr "Se" ]}))
           {[ "logradouro" := JStr "Praca da Se"; "bairro" := JStr "Se" ]});
    try reflexivity.
  by apply not_elem_of_dom.
Defined.

(** X7: the service answers, with a status that is no error, a JSON
    document that is not an object (a list, a string, a number, null):
    [get_address] raises an [AttributeError] at [data.keys()]. *)
Theorem get_address_body_not_object_raises
    (w : world) (cep : string) (r : response) :
  http w (lookup_url cep) = Answer r →
  error_status r = false →
  (∀ m, body r ≠ JObj m) →
  ∃ text,
    get_address cep w = (Raise (OtherException "AttributeError" text), w).
Proof. intros. eexists. by eapply get_address_body_not_object. Qed.

Lemma get_address_body_not_object_raises_witness :
  ∃ text,
    get_address "01001000" list_answer_world =
      (Raise (OtherException "AttributeError" text), list_answer_world).
Proof.
  apply (get_address_body_not_object_raises list_answer_world "01001000"
           (Response 200 "" (JArr []))); [reflexivity|reflexivity|done].
Defined.

(** X8: [get_address] returns a result that is not an error exactly when
    the service answers, with a status that is no error, a JSON object
    without the key [erro] and with the four address keys. *)
Theorem get_address_succeeds_iff (w : world) (cep : string) :
  (∃ v, (get_address cep w).1 = Return v ∧ non_error v)
  ↔ (∃ r m,
       http w (lookup_url cep) = Answer r
       ∧ error_status r = false
       ∧ body r = JObj m
       ∧ ("erro" ∉ dom m)
       ∧ first_missing m lookup_fields = None).
Proof.
  split.
  - intros (v & Hv & Hok).
    destruct (http w (lookup_url cep)) as [text|r] eqn:Hq.
    { rewrite (get_address_transport w cep text Hq) in Hv.
      injection Hv as <-. by destruct (soft_error_is_error text). }
    destruct (error_status r) eqn:Hs.
    { rewrite (get_address_http_error w cep r Hq Hs) in Hv.
      injection Hv as <-. by destruct (soft_error_is_error (http_error_text r)). }
    destruct (json_dict_or_not (body r)) as [[m Hb]|Hb].
    2: { by rewrite (get_address_body_not_object w cep r Hq Hs Hb) in Hv. }
    destruct (decide ("erro" ∈ dom m)) as [He|He].
    { rewrite (get_address_erro w cep r m Hq Hs Hb He) in Hv.
      injection Hv as <-. by destruct (soft_error_is_error "CEP not found."). }
    destruct (first_missing m lookup_fields) as [k|] eqn:Hk.
    { by rewrite (get_address_missing w cep r Hq Hs m k Hb He Hk) in Hv. }
    by exists r, m.
  - intros (r & m & Hq & Hs & Hb & He & Hk).
    pose proof (first_missing_none m lookup_fields Hk) as Hall.
    destruct (Hall "logradouro") as [rua H1]; [set_solver|].
    destruct (Hall "bairro") as [bairro H2]; [set_solver|].
    destruct (Hall "localidade") as [cidade H3]; [set_solver|].
    destruct (Hall "uf") as [estado H4]; [set_solver|].
    exists (address_found cep rua bairro cidade estado). split.
    + by rewrite (get_address_found w cep r m rua bairro cidade estado).
    + apply address_found_non_error.
Qed.

Lemma get_address_succeeds_iff_witness :
  ∃ v, (get_address "01001000" example_world).1 = Return v ∧ non_error v.
Proof.
  apply (get_address_succeeds_iff example_world "01001000").
  eexists _, _. split; [reflexivity|]. split; [reflexivity|].
  split; [reflexivity|]. split; [by apply not_elem_of_dom|reflexivity].
Defined.

(** ** Saving an address in any world *)

Lemma stored_stored (db1 db2 : gmap string json) (w : world) :
  stored db2 (stored db1 w) = stored db2 w.
Proof. reflexivity. Qed.

Lemma save_address_unreadable (payload : PayloadSaveAddress.t) (w : world)
    (e : exn) :
  db_file w = Unreadable e → save_address payload w = (Raise e, w).
Proof. intros Hf. unfold save_address. run. by rewrite Hf. Qed.

Lemma save_address_not_dict (payload : PayloadSaveAddress.t) (w : world)
    (v : json) :
  db_file w = Holds v → (∀ m, v ≠ JObj m) →
  ∃ text,
    save_address payload w = (Raise (OtherException "AttributeError" text), w).
Proof.
  intros Hf Hv. eexists. unfold save_address. run. rewrite Hf.
  by rewrite (check_registration_not_dict _ w v Hf Hv).
Qed.

Lemma not_found_ne_updated (rm : string) : not_found rm ≠ updated rm.
Proof. by apply (JObj_ne_at "status"). Qed.

Lemma soft_error_ne_updated (detail rm : string) :
  soft_error detail ≠ updated rm.
Proof. by apply (JObj_ne_at "status"). Qed.

(** A save either leaves the world as it was, or writes the store with
    one entry replaced and returns "updated". *)
Lemma save_address_effect (payload : PayloadSaveAddress.t) (w : world) :
  let rm := PayloadSaveAddress.rm payload in
  ((save_address payload w).2 = w
   ∧ (save_address payload w).1 ≠ Return (updated rm))
  ∨ (∃ db rua bairro cidade estado,
       db_file w = Holds (JObj db)
       ∧ is_Some (db !! rm)
       ∧ get_address (PayloadSaveAddress.cep payload) w =
           (Return (address_found (PayloadSaveAddress.cep payload) rua bairro
                      cidade estado), w)
       ∧ save_address payload w =
           (Return (updated rm),
            stored (<[rm := JObj (merged_record payload rua bairro cidade
                                    estado)]> db) w)).
Proof.
  intros rm. destruct (db_file w) as [v|e] eqn:Hf.
  2: { left. by rewrite (save_address_unreadable payload w e Hf). }
  destruct (json_dict_or_not v) as [[db ->]|Hv].
  2: { left. destruct (save_address_not_dict payload w v Hf Hv) as [t ->].
       by split. }
  destruct (db !! rm) as [x|] eqn:Hrm.
  2: { left. rewrite (save_address_absent w db payload Hf Hrm). split; [done|].
       intros H. cbn [fst] in H. apply (not_found_ne_updated rm).
       revert H. unfold rm. congruence. }
  assert (is_Some (db !! rm)) as Hin by eauto.
  destruct (get_address_cases w (PayloadSaveAddress.cep payload))
    as [[e He]|[[d Hd]|(rua & bairro & cidade & estado & Hq)]].
  - left. by rewrite (save_address_lookup_raises w db payload Hf e Hin He).
  - left.
    rewrite (save_address_lookup_soft_error w db payload Hf d Hin Hd).
    split; [done|].
    intros H. cbn [fst] in H. apply (soft_error_ne_updated d rm).
    revert H. unfold rm. congruence.
  - right. exists db, rua, bairro, cidade, estado.
    split; [done|]. split; [done|]. split; [done|].
    by apply save_address_lookup_found.
Qed.

(** X9: when the store file cannot be loaded, [save_address] raises what
    the load raised, before any lookup, and writes nothing. *)
Theorem save_address_store_unreadable
    (payload : PayloadSaveAddress.t) (w : world) (e : exn) :
  db_file w = Unreadable e → save_address payload w = (Raise e, w).
Proof. apply save_address_unreadable. Qed.

Lemma save_address_store_unreadable_witness :
  save_address save_ana no_store_world =
    (Raise (OtherException "FileNotFoundError"
              "[Errno 2] No such file or directory"), no_store_world).
Proof.
  apply (save_address_store_unreadable save_ana no_store_world). reflexivity.
Defined.

(** X10: the identifier is in the store and the lookup does not return a
    result that is not an error: it returns a soft error, or it raises.
    Then [save_address] ends exactly as the lookup did, and the world, the
    store with it, is unchanged. *)
Theorem save_address_failed_lookup_writes_nothing
    (w : world) (db : gmap string json) (payload : PayloadSaveAddress.t) :
  db_file w = Holds (JObj db) →
  is_Some (db !! PayloadSaveAddress.rm payload) →
  (∀ v, (get_address (PayloadSaveAddress.cep payload) w).1 = Return v →
        ¬ non_error v) →
  save_address payload w =
    ((get_address (PayloadSaveAddress.cep payload) w).1, w).
Proof.
  intros Hf Hin Hbad.
  destruct (get_address_cases w (PayloadSaveAddress.cep payload))
    as [[e He]|[[d Hd]|(rua & bairro & cidade & estado & Hq)]].
  - rewrite He. by apply (save_address_lookup_raises w db).
  - rewrite Hd. by apply (save_address_lookup_soft_error w db).
  - destruct (Hbad (address_found (PayloadSaveAddress.cep payload) rua bairro
                      cidade estado)).
    + by rewrite Hq.
    + apply address_found_non_error.
Qed.

Lemma save_address_failed_lookup_writes_nothing_witness :
  save_address (PayloadSaveAddress.Build "12345" "99999999" 1 "Ana")
    example_world
  = ((get_address "99999999" example_world).1, example_world).
Proof.
  apply (save_address_failed_lookup_writes_nothing example_world example_db
           (PayloadSaveAddress.Build "12345" "99999999" 1 "Ana")).
  - reflexivity.
  - by exists JNull.
  - intros v Hv. injection Hv as <-. apply soft_error_is_error.
Defined.

(** X11: in any world, [save_address] never touches the worksheets nor
    the record of [append_row] calls, and unless it returns the "updated"
    result it leaves the whole world, the store with it, as it was. *)
Theorem save_address_writes_only_when_updated
    (payload : PayloadSaveAddress.t) (w : world) :
  let w' := (save_address payload w).2 in
  sheets w' = sheets w
  ∧ append_calls w' = append_calls w
  ∧ ((save_address payload w).1
       ≠ Return (updated (PayloadSaveAddress.rm payload)) →
     w' = w).
Proof.
  cbv zeta.
  destruct (save_address_effect payload w)
    as [[Hw Hr]|(db & rua & bairro & cidade & estado & Hf & Hin & Hq & Hs)].
  - rewrite Hw. by repeat split.
  - rewrite Hs. split; [reflexivity|]. split; [reflexivity|].
    intros Hne. by destruct Hne.
Qed.

Lemma save_address_writes_only_when_updated_witness :
  (save_address (PayloadSaveAddress.Build "77777" "01001000" 1 "Bia")
     example_world).2 = example_world.
Proof.
  destruct (save_address_writes_only_when_updated
              (PayloadSaveAddress.Build "77777" "01001000" 1 "Bia")
              example_world) as (_ & _ & Hw).
  apply Hw. intros H. vm_compute in H. discriminate H.
Defined.

(** ** Saves one after the other *)

Lemma lookup_succeeds_found (w : world) (cep : string) :
  lookup_succeeds w cep →
  ∃ rua bairro cidade estado,
    get_address cep w =
      (Return (address_found cep rua bairro cidade estado), w).
Proof.
  intros (v & Hv & Hok).
  destruct (get_address_cases w cep)
    as [[e He]|[[d Hd]|(rua & bairro & cidade & estado & Hq)]].
  - by rewrite He in Hv.
  - rewrite Hd in Hv. injection Hv as <-. by destruct (soft_error_is_error d).
  - by exists rua, bairro, cidade, estado.
Qed.

(** A save in the world where the store [db'] has just been written. *)
Lemma save_address_in_stored (w : world) (db' : gmap string json)
    (payload : PayloadSaveAddress.t) (rua bairro cidade estado : json) :
  let rm := PayloadSaveAddress.rm payload in
  let cep := PayloadSaveAddress.cep payload in
  is_Some (db' !! rm) →
  get_address cep w =
    (Return (address_found cep rua bairro cidade estado), w) →
  save_address payload (stored db' w) =
    (Return (updated rm),
     stored (<[rm := JObj (merged_record payload rua bairro cidade estado)]>
               db') w).
Proof.
  intros rm cep Hin Hq.
  rewrite (save_address_lookup_found (stored db' w) db' payload eq_refl
             rua bairro cidade estado Hin); [done|].
  unfold stored. rewrite get_address_set_db_file. fold cep. by rewrite Hq.
Qed.

(** X12: two saves for the same identifier, one after the other, both with
    a lookup that succeeds: the second save ends as it would have without
    the first, result and world.  The later record replaces the earlier
    one; nothing of the earlier one is kept. *)
Theorem save_address_last_write_wins
    (w : world) (db : gmap string json) (p1 p2 : PayloadSaveAddress.t) :
  db_file w = Holds (JObj db) →
  is_Some (db !! PayloadSaveAddress.rm p1) →
  PayloadSaveAddress.rm p2 = PayloadSaveAddress.rm p1 →
  lookup_succeeds w (PayloadSaveAddress.cep p1) →
  lookup_succeeds w (PayloadSaveAddress.cep p2) →
  save_address p2 (save_address p1 w).2 = save_address p2 w.
Proof.
  intros Hf Hin Hrm H1 H2.
  destruct (lookup_succeeds_found _ _ H1) as (r1 & b1 & c1 & e1 & Hq1).
  destruct (lookup_succeeds_found _ _ H2) as (r2 & b2 & c2 & e2 & Hq2).
  rewrite (save_address_lookup_found w db p1 Hf r1 b1 c1 e1 Hin Hq1).
  cbn [snd].
  rewrite (save_address_in_stored w _ p2 r2 b2 c2 e2);
    [|rewrite Hrm, lookup_insert_eq; eauto|done].
  rewrite (save_address_lookup_found w db p2 Hf r2 b2 c2 e2);
    [|by rewrite Hrm|done].
  rewrite Hrm. by rewrite insert_insert_eq.
Qed.

Lemma example_lookup_succeeds : lookup_succeeds example_world "01001000".
Proof. eexists. split; [reflexivity|]. eexists. split; reflexivity. Qed.

Lemma save_address_last_write_wins_witness :
  save_address save_bia (save_address save_ana example_world).2
  = save_address save_bia example_world.
Proof.
  apply (save_address_last_write_wins example_world example_db save_ana
           save_bia).
  - reflexivity.
  - by exists JNull.
  - reflexivity.
  - apply example_lookup_succeeds.
  - apply example_lookup_succeeds.
Defined.

(** X13: two saves for different identifiers, both in the store and both
    with a lookup that succeeds, leave the same world in either order, and
    the second save returns "updated" in both orders. *)
Theorem save_address_different_identifiers_commute
    (w : world) (db : gmap string json) (p1 p2 : PayloadSaveAddress.t) :
  db_file w = Holds (JObj db) →
  is_Some (db !! PayloadSaveAddress.rm p1) →
  is_Some (db !! PayloadSaveAddress.rm p2) →
  PayloadSaveAddress.rm p1 ≠ PayloadSaveAddress.rm p2 →
  lookup_succeeds w (PayloadSaveAddress.cep p1) →
  lookup_succeeds w (PayloadSaveAddress.cep p2) →
  (save_address p2 (save_address p1 w).2).2
  = (save_address p1 (save_address p2 w).2).2
  ∧ (save_address p2 (save_address p1 w).2).1
    = Return (updated (PayloadSaveAddress.rm p2))
  ∧ (save_address p1 (save_address p2 w).2).1
    = Return (updated (PayloadSaveAddress.rm p1)).
Proof.
  intros Hf Hin1 Hin2 Hne H1 H2.
  destruct (lookup_succeeds_found _ _ H1) as (r1 & b1 & c1 & e1 & Hq1).
  destruct (lookup_succeeds_found _ _ H2) as (r2 & b2 & c2 & e2 & Hq2).
  rewrite (save_address_lookup_found w db p1 Hf r1 b1 c1 e1 Hin1 Hq1).
  rewrite (save_address_lookup_found w db p2 Hf r2 b2 c2 e2 Hin2 Hq2).
  cbn [snd].
  rewrite (save_address_in_stored w _ p2 r2 b2 c2 e2);
    [|by rewrite lookup_insert_ne|done].
  rewrite (save_address_in_stored w _ p1 r1 b1 c1 e1);
    [|by rewrite lookup_insert_ne|done].
  split; [|by split]. cbn [snd]. f_equal. by apply insert_insert_ne.
Qed.

Lemma save_address_different_identifiers_commute_witness :
  (save_address save_caio (save_address save_ana example_world).2).2
  = (save_address save_ana (save_address save_caio example_world).2).2
  ∧ (save_address save_caio (save_address save_ana example_world).2).1
    = Return (updated "54321")
  ∧ (save_address save_ana (save_address save_caio example_world).2).1
    = Return (updated "12345").
Proof.
  apply (save_address_different_identifiers_commute example_world example_db
           save_ana save_caio).
  - reflexivity.
  - by exists JNull.
  - by exists se_address.
  - done.
  - apply example_lookup_succeeds.
  - apply example_lookup_succeeds.
Defined.

(** X14: in any world, a save for one identifier does not change what
    [check_registration] returns for another identifier. *)
Theorem save_address_keeps_other_registrations
    (payload : PayloadSaveAddress.t) (other : string) (w : world) :
  other ≠ PayloadSaveAddress.rm payload →
  (check_registration other (save_address payload w).2).1
  = (check_registration other w).1.
Proof.
  intros Hne.
  destruct (save_address_effect payload w)
    as [[Hw Hr]|(db & rua & bairro & cidade & estado & Hf & Hin & Hq & Hs)].
  - by rewrite Hw.
  - rewrite Hs. cbn [snd].
    set (db' := <[PayloadSaveAddress.rm payload :=
                    JObj (merged_record payload rua bairro cidade estado)]>
                  db).
    assert (db' !! other = db !! other) as Hother
      by (apply lookup_insert_ne; congruence).
    destruct (db !! other) as [x|] eqn:Hx.
    + rewrite (check_present (stored db' w) db' other eq_refl x Hother).
      by rewrite (check_present w db other Hf x Hx).
    + rewrite (check_absent (stored db' w) db' other eq_refl Hother).
      by rewrite (check_absent w db other Hf Hx).
Qed.

Lemma save_address_keeps_other_registrations_witness :
  (check_registration "54321" (save_address save_ana example_world).2).1
  = (check_registration "54321" example_world).1.
Proof.
  apply (save_address_keeps_other_registrations save_ana "54321"
           example_world). done.
Defined.

(** ** Orders of registered customers *)

(** Reads one field on both sides of [record_order_*]. *)
Ltac next_field k :=
  destruct (subscript _ k) as [?|?]; cbv beta iota;
  [|by rewrite order_handler_returns].

Section record_order_facts.
Variables (w : world) (db : gmap string json).
Hypothesis store : db_file w = Holds (JObj db).

Lemma make_order_tech_run payload sheet_name data :
  let rm := PayloadMakeOrderTech.rm payload in
  db !! rm = Some data → data ≠ JNull →
  make_order_tech payload sheet_name w =
    record_order w sheet_name rm (tech_items payload) data.
Proof using store.
  intros rm Hrm Hdata. unfold make_order_tech. run. fold rm.
  rewrite (check_record w db rm store data Hrm Hdata).
  autorewrite with payload. tests. autorewrite with payload.
  unfold open_worksheet, now_formatted, getitem, record_order. run.
  destruct (worksheet_error w sheet_name) as [e|];
    [by rewrite order_handler_returns|].
  cbn [read_fields address_fields].
  next_field "cep". next_field "rua". next_field "numero".
  next_field "bairro". next_field "cidade". next_field "estado".
  next_field "nome".
  unfold append_row, appended. run.
  cbn [log_append_call append_error sheets tech_items app]. fold rm.
  match goal with
  | |- context [append_error w sheet_name ?o] =>
      destruct (append_error w sheet_name o) as [e|]
  end; [by rewrite order_handler_returns|reflexivity].
Qed.

Lemma make_order_poke_run payload sheet_name data :
  let rm := PayloadMakeOrderPoke.rm payload in
  db !! rm = Some data → data ≠ JNull →
  make_order_poke payload sheet_name w =
    record_order w sheet_name rm (poke_items payload) data.
Proof using store.
  intros rm Hrm Hdata. unfold make_order_poke. run. fold rm.
  rewrite (check_record w db rm store data Hrm Hdata).
  autorewrite with payload. tests. autorewrite with payload.
  unfold open_worksheet, now_formatted, getitem, record_order. run.
  destruct (worksheet_error w sheet_name) as [e|];
    [by rewrite order_handler_returns|].
  cbn [read_fields address_fields].
  next_field "cep". next_field "rua". next_field "numero".
  next_field "bairro". next_field "cidade". next_field "estado".
  next_field "nome".
  unfold append_row, appended. run.
  cbn [log_append_call append_error sheets poke_items app]. fold rm.
  match goal with
  | |- context [append_error w sheet_name ?o] =>
      destruct (append_error w sheet_name o) as [e|]
  end; [by rewrite order_handler_returns|reflexivity].
Qed.
End record_order_facts.

Lemma read_fields_dict (m : gmap string json) (ks : list string) :
  match first_missing m ks with
  | Some k => read_fields (JObj m) ks = Raise (KeyError k)
  | None => ∃ cells, read_fields (JObj m) ks = Return cells
                     ∧ length cells = length ks
  end.
Proof.
  induction ks as [|k ks IH]; cbn [first_missing read_fields subscript].
  - by exists [].
  - destruct (m !! k) as [x|]; [|done].
    destruct (first_missing m ks) as [k'|].
    + by rewrite IH.
    + destruct IH as (cells & -> & Hlen). exists (x :: cells).
      split; [done|]. cbn. by rewrite Hlen.
Qed.

Lemma read_fields_not_dict (data : json) :
  (∀ m, data ≠ JObj m) →
  ∃ text,
    read_fields data address_fields = Raise (OtherException "TypeError" text).
Proof.
  intros Hdict.
  destruct data; try (eexists; reflexivity). by destruct (Hdict m).
Qed.

(** X15: a tech order of a customer whose record has the seven address
    fields, with the worksheet open and the append going through, returns
    "order_made" and adds one row at the end of the worksheet: the timestamp,
    the identifier, produto, marca, valor, then cep, rua, numero, bairro,
    cidade, estado and nome of the record, in that order.  The call of
    [append_row] is the one call recorded. *)
Theorem make_order_tech_appends_row
    (w : world) (db m : gmap string json) (payload : PayloadMakeOrderTech.t)
    (sheet_name : string) (cep rua numero bairro cidade estado nome : json) :
  let rm := PayloadMakeOrderTech.rm payload in
  let order :=
    [ JStr (clock w); JStr rm;
      JStr (PayloadMakeOrderTech.produto payload);
      JStr (PayloadMakeOrderTech.marca payload);
      JFloat (PayloadMakeOrderTech.valor payload);
      cep; rua; numero; bairro; cidade; estado; nome ] in
  db_file w = Holds (JObj db) →
  db !! rm = Some (JObj m) →
  m !! "cep" = Some cep → m !! "rua" = Some rua →
  m !! "numero" = Some numero → m !! "bairro" = Some bairro →
  m !! "cidade" = Some cidade → m !! "estado" = Some estado →
  m !! "nome" = Some nome →
  worksheet_error w sheet_name = None →
  append_error w sheet_name order = None →
  ∃ w',
    make_order_tech payload sheet_name w = (Return (order_made rm), w')
    ∧ sheets w' !! sheet_name
      = Some (default [] (sheets w !! sheet_name) ++ [order])%list
    ∧ append_calls w' = (sheet_name, order) :: append_calls w
    ∧ db_file w' = db_file w.
Proof.
  intros rm order Hf Hrm H1 H2 H3 H4 H5 H6 H7 Hws Happ.
  exists (appended sheet_name order w).
  rewrite (make_order_tech_run w db Hf payload sheet_name (JObj m) Hrm);
    [|done].
  unfold record_order. rewrite Hws.
  cbn [read_fields address_fields subscript].
  rewrite H1, H2, H3, H4, H5, H6, H7.
  cbn [tech_items app]. fold rm order. rewrite Happ.
  split; [done|]. split; [apply lookup_insert_eq|by split].
Qed.

Lemma make_order_tech_appends_row_witness :
  ∃ w',
    make_order_tech order_tech_54321 tech_store_sheet_name example_world
      = (Return (order_made "54321"), w')
    ∧ sheets w' !! tech_store_sheet_name
      = Some (default [] (sheets example_world !! tech_store_sheet_name) ++
              [[ JStr "2024-05-01 12:00:00"; JStr "54321"; JStr "mouse";
                 JStr "acme"; JFloat (S754_zero false);
                 JStr "01001000"; JStr "Praca da Se"; JInt 100; JStr "Se";
                 JStr "Sao Paulo"; JStr "SP"; JStr "Ana" ]])%list
    ∧ append_calls w'
      = (tech_store_sheet_name,
         [ JStr "2024-05-01 12:00:00"; JStr "54321"; JStr "mouse";
           JStr "acme"; JFloat (S754_zero false);
           JStr "01001000"; JStr "Praca da Se"; JInt 100; JStr "Se";
           JStr "Sao Paulo"; JStr "SP"; JStr "Ana" ])
        :: append_calls example_world
    ∧ db_file w' = db_file example_world.
Proof.
  apply (make_order_tech_appends_row example_world example_db
           {[ "cep" := JStr "01001000";
              "rua" := JStr "Praca da Se";
              "bairro" := JStr "Se";
              "cidade" := JStr "Sao Paulo";
              "estado" := JStr "SP";
              "numero" := JInt 100;
              "nome" := JStr "Ana" ]}
           order_tech_54321 tech_store_sheet_name);
    reflexivity.
Defined.

(** X16: a poke order of a customer whose record has the seven address
    fields, with the worksheet open and the append going through, returns
    "order_made" and adds one row at the end of the worksheet: the timestamp,
    the identifier, tamanho, base, topping, crunch, proteina, molho, valor,
    then cep, rua, numero, bairro, cidade, estado and nome of the record. *)
Theorem make_order_poke_appends_row
    (w : world) (db m : gmap string json) (payload : PayloadMakeOrderPoke.t)
    (sheet_name : string) (cep rua numero bairro cidade estado nome : json) :
  let rm := PayloadMakeOrderPoke.rm payload in
  let order :=
    [ JStr (clock w); JStr rm;
      JStr (PayloadMakeOrderPoke.tamanho payload);
      JStr (PayloadMakeOrderPoke.base payload);
      JStr (PayloadMakeOrderPoke.topping payload);
      JStr (PayloadMakeOrderPoke.crunch payload);
      JStr (PayloadMakeOrderPoke.proteina payload);
      JStr (PayloadMakeOrderPoke.molho payload);
      JFloat (PayloadMakeOrderPoke.valor payload);
      cep; rua; numero; bairro; cidade; estado; nome ] in
  db_file w = Holds (JObj db) →
  db !! rm = Some (JObj m) →
  m !! "cep" = Some cep → m !! "rua" = Some rua →
  m !! "numero" = Some numero → m !! "bairro" = Some bairro →
  m !! "cidade" = Some cidade → m !! "estado" = Some estado →
  m !! "nome" = Some nome →
  worksheet_error w sheet_name = None →
  append_error w sheet_name order = None →
  ∃ w',
    make_order_poke payload sheet_name w = (Return (order_made rm), w')
    ∧ sheets w' !! sheet_name
      = Some (default [] (sheets w !! sheet_name) ++ [order])%list
    ∧ append_calls w' = (sheet_name, order) :: append_calls w
    ∧ db_file w' = db_file w.
Proof.
  intros rm order Hf Hrm H1 H2 H3 H4 H5 H6 H7 Hws Happ.
  exists (appended sheet_name order w).
  rewrite (make_order_poke_run w db Hf payload sheet_name (JObj m) Hrm);
    [|done].
  unfold record_order. rewrite Hws.
  cbn [read_fields address_fields subscript].
  rewrite H1, H2, H3, H4, H5, H6, H7.
  cbn [poke_items app]. fold rm order. rewrite Happ.
  split; [done|]. split; [apply lookup_insert_eq|by split].
Qed.

Lemma make_order_poke_appends_row_witness :
  ∃ w',
    make_order_poke order_poke_54321 poke_store_sheet_name example_world
      = (Return (order_made "54321"), w')
    ∧ sheets w' !! poke_store_sheet_name
      = Some (default [] (sheets example_world !! poke_store_sheet_name) ++
              [[ JStr "2024-05-01 12:00:00"; JStr "54321"; JStr "M";
                 JStr "arroz"; JStr "manga"; JStr "cebola"; JStr "salmao";
                 JStr "shoyu"; JFloat (S754_zero false);
                 JStr "01001000"; JStr "Praca da Se"; JInt 100; JStr "Se";
                 JStr "Sao Paulo"; JStr "SP"; JStr "Ana" ]])%list
    ∧ append_calls w'
      = (poke_store_sheet_name,
         [ JStr "2024-05-01 12:00:00"; JStr "54321"; JStr "M";
           JStr "arroz"; JStr "manga"; JStr "cebola"; JStr "salmao";
           JStr "shoyu"; JFloat (S754_zero false);
           JStr "01001000"; JStr "Praca da Se"; JInt 100; JStr "Se";
           JStr "Sao Paulo"; JStr "SP"; JStr "Ana" ])
        :: append_calls example_world
    ∧ db_file w' = db_file example_world.
Proof.
  apply (make_order_poke_appends_row example_world example_db
           {[ "cep" := JStr "01001000";
              "rua" := JStr "Praca da Se";
              "bairro" := JStr "Se";
              "cidade" := JStr "Sao Paulo";
              "estado" := JStr "SP";
              "numero" := JInt 100;
              "nome" := JStr "Ana" ]}
           order_poke_54321 poke_store_sheet_name);
    reflexivity.
Defined.

(** X17: the worksheet of an order of a registered customer cannot be
    opened: the order, tech or poke, returns the failure as data, with the
    status of its class, and leaves the world as it was.  The worksheet is
    opened before the record is read: this holds whatever the record has. *)
Theorem order_worksheet_failure
    (w : world) (db : gmap string json) (sheet_name : string) (e : exn) :
  db_file w = Holds (JObj db) →
  worksheet_error w sheet_name = Some e →
  (∀ payload data,
     db !! PayloadMakeOrderTech.rm payload = Some data → data ≠ JNull →
     make_order_tech payload sheet_name w = (Return (order_failure e), w))
  ∧ (∀ payload data,
       db !! PayloadMakeOrderPoke.rm payload = Some data → data ≠ JNull →
       make_order_poke payload sheet_name w = (Return (order_failure e), w)).
Proof.
  intros Hf Hws. split; intros payload data Hrm Hdata.
  - rewrite (make_order_tech_run w db Hf payload sheet_name data Hrm Hdata).
    unfold record_order. by rewrite Hws.
  - rewrite (make_order_poke_run w db Hf payload sheet_name data Hrm Hdata).
    unfold record_order. by rewrite Hws.
Qed.

Lemma order_worksheet_failure_witness :
  make_order_tech order_tech_54321 tech_store_sheet_name sheets_refused_world
    = (Return (order_failure (APIError "403 PERMISSION_DENIED")),
       sheets_refused_world)
  ∧ make_order_poke order_poke_54321 poke_store_sheet_name
      sheets_refused_world
    = (Return (order_failure (APIError "403 PERMISSION_DENIED")),
       sheets_refused_world).
Proof.
  split.
  - destruct (order_worksheet_failure sheets_refused_world example_db
                tech_store_sheet_name (APIError "403 PERMISSION_DENIED")
                eq_refl eq_refl) as [Ht _].
    by apply (Ht order_tech_54321 se_address).
  - destruct (order_worksheet_failure sheets_refused_world example_db
                poke_store_sheet_name (APIError "403 PERMISSION_DENIED")
                eq_refl eq_refl) as [_ Hp].
    by apply (Hp order_poke_54321 se_address).
Defined.

(** X18: the record of the customer is a dict that lacks one of the seven
    address fields, and the worksheet can be opened: the order, tech or
    poke, returns the "missing_data" failure for the first field, in the
    order cep, rua, numero, bairro, cidade, estado, nome, that is missing,
    and leaves the world as it was: no row is appended. *)
Theorem order_missing_field
    (w : world) (db m : gmap string json) (sheet_name k : string) :
  db_file w = Holds (JObj db) →
  worksheet_error w sheet_name = None →
  first_missing m address_fields = Some k →
  (∀ payload,
     db !! PayloadMakeOrderTech.rm payload = Some (JObj m) →
     make_order_tech payload sheet_name w
       = (Return (order_failure (KeyError k)), w))
  ∧ (∀ payload,
       db !! PayloadMakeOrderPoke.rm payload = Some (JObj m) →
       make_order_poke payload sheet_name w
         = (Return (order_failure (KeyError k)), w)).
Proof.
  intros Hf Hws Hk.
  pose proof (read_fields_dict m address_fields) as Hread.
  rewrite Hk in Hread. split; intros payload Hrm.
  - rewrite (make_order_tech_run w db Hf payload sheet_name (JObj m) Hrm);
      [|done].
    unfold record_order. by rewrite Hws, Hread.
  - rewrite (make_order_poke_run w db Hf payload sheet_name (JObj m) Hrm);
      [|done].
    unfold record_order. by rewrite Hws, Hread.
Qed.

Lemma order_missing_field_witness :
  make_order_tech order_tech_11111 tech_store_sheet_name partial_record_world
    = (Return (order_failure (KeyError "rua")), partial_record_world)
  ∧ make_order_poke order_poke_11111 poke_store_sheet_name
      partial_record_world
    = (Return (order_failure (KeyError "rua")), partial_record_world).
Proof.
  assert (first_missing ({[ "cep" := JStr "01001000" ]} : gmap string json)
            address_fields = Some "rua") as Hk by (vm_compute; reflexivity).
  split.
  - destruct (order_missing_field partial_record_world
                {[ "11111" := JObj {[ "cep" := JStr "01001000" ]} ]}
                {[ "cep" := JStr "01001000" ]} tech_store_sheet_name "rua"
                eq_refl eq_refl Hk) as [Ht _].
    by apply (Ht order_tech_11111).
  - destruct (order_missing_field partial_record_world
                {[ "11111" := JObj {[ "cep" := JStr "01001000" ]} ]}
                {[ "cep" := JStr "01001000" ]} poke_store_sheet_name "rua"
                eq_refl eq_refl Hk) as [_ Hp].
    by apply (Hp order_poke_11111).
Defined.

(** X19: the entry of the customer is neither null nor a dict (a string, a
    number, a list), and the worksheet can be opened: reading its first
    field raises a [TypeError], and the order, tech or poke, returns it as
    the "unknown_error" failure and leaves the world as it was. *)
Theorem order_record_not_a_dict
    (w : world) (db : gmap string json) (sheet_name : string) (data : json) :
  db_file w = Holds (JObj db) →
  worksheet_error w sheet_name = None →
  data ≠ JNull →
  (∀ m, data ≠ JObj m) →
  ∃ text,
    failure_status (OtherException "TypeError" text) = "unknown_error"
    ∧ (∀ payload,
         db !! PayloadMakeOrderTech.rm payload = Some data →
         make_order_tech payload sheet_name w
           = (Return (order_failure (OtherException "TypeError" text)), w))
    ∧ (∀ payload,
         db !! PayloadMakeOrderPoke.rm payload = Some data →
         make_order_poke payload sheet_name w
           = (Return (order_failure (OtherException "TypeError" text)), w)).
Proof.
  intros Hf Hws Hnull Hdict.
  destruct (read_fields_not_dict data Hdict) as [text Hread].
  exists text. split; [reflexivity|]. split; intros payload Hrm.
  - rewrite (make_order_tech_run w db Hf payload sheet_name data Hrm Hnull).
    unfold record_order. by rewrite Hws, Hread.
  - rewrite (make_order_poke_run w db Hf payload sheet_name data Hrm Hnull).
    unfold record_order. by rewrite Hws, Hread.
Qed.

Lemma order_record_not_a_dict_witness :
  ∃ text,
    failure_status (OtherException "TypeError" text) = "unknown_error"
    ∧ (∀ payload,
         ({[ "11111" := JStr "Praca da Se, 100" ]} : gmap string json)
           !! PayloadMakeOrderTech.rm payload
           = Some (JStr "Praca da Se, 100") →
         make_order_tech payload tech_store_sheet_name text_record_world
           = (Return (order_failure (OtherException "TypeError" text)),
              text_record_world))
    ∧ (∀ payload,
         ({[ "11111" := JStr "Praca da Se, 100" ]} : gmap string json)
           !! PayloadMakeOrderPoke.rm payload
           = Some (JStr "Praca da Se, 100") →
         make_order_poke payload tech_store_sheet_name text_record_world
           = (Return (order_failure (OtherException "TypeError" text)),
              text_record_world)).
Proof.
  apply (order_record_not_a_dict text_record_world
           {[ "11111" := JStr "Praca da Se, 100" ]} tech_store_sheet_name
           (JStr "Praca da Se, 100")); [reflexivity|reflexivity|done|done].
Defined.

(** X20: the append of the row of an order fails: the order, tech or poke,
    returns the failure as data, with the status of its class; the call of
    [append_row] was made, with the row built from the request and the
    record, and the rows of the worksheets are as they were. *)
Theorem order_append_failure
    (w : world) (db : gmap string json) (sheet_name : string) (data : json)
    (cells : list json) (e : exn) :
  db_file w = Holds (JObj db) →
  data ≠ JNull →
  worksheet_error w sheet_name = None →
  read_fields data address_fields = Return cells →
  (∀ payload,
     let order := (JStr (clock w) :: tech_items payload ++ cells)%list in
     db !! PayloadMakeOrderTech.rm payload = Some data →
     append_error w sheet_name order = Some e →
     ∃ w',
       make_order_tech payload sheet_name w = (Return (order_failure e), w')
       ∧ append_calls w' = (sheet_name, order) :: append_calls w
       ∧ sheets w' = sheets w)
  ∧ (∀ payload,
       let order := (JStr (clock w) :: poke_items payload ++ cells)%list in
       db !! PayloadMakeOrderPoke.rm payload = Some data →
       append_error w sheet_name order = Some e →
       ∃ w',
         make_order_poke payload sheet_name w = (Return (order_failure e), w')
         ∧ append_calls w' = (sheet_name, order) :: append_calls w
         ∧ sheets w' = sheets w).
Proof.
  intros Hf Hdata Hws Hread. split; intros payload order Hrm Happ.
  - exists (log_append_call sheet_name order w).
    rewrite (make_order_tech_run w db Hf payload sheet_name data Hrm Hdata).
    unfold record_order. rewrite Hws, Hread. cbv zeta. fold order.
    by rewrite Happ.
  - exists (log_append_call sheet_name order w).
    rewrite (make_order_poke_run w db Hf payload sheet_name data Hrm Hdata).
    unfold record_order. rewrite Hws, Hread. cbv zeta. fold order.
    by rewrite Happ.
Qed.

Lemma order_append_failure_witness :
  ∃ w',
    make_order_tech order_tech_54321 tech_store_sheet_name
      append_refused_world
      = (Return (order_failure (APIError "429 RESOURCE_EXHAUSTED")), w')
    ∧ length (append_calls w') = 1%nat
    ∧ sheets w' = sheets append_refused_world.
Proof.
  destruct (order_append_failure append_refused_world example_db
              tech_store_sheet_name se_address
              [ JStr "01001000"; JStr "Praca da Se"; JInt 100; JStr "Se";
                JStr "Sao Paulo"; JStr "SP"; JStr "Ana" ]
              (APIError "429 RESOURCE_EXHAUSTED"))
    as [Ht _]; [reflexivity|done|reflexivity|reflexivity|].
  destruct (Ht order_tech_54321) as (w' & Ho & Hc & Hs);
    [reflexivity|reflexivity|].
  exists w'. split; [done|]. split; [by rewrite Hc|done].
Defined.

(** ** Orders in any world *)

Lemma order_footprint_refl (sheet_name : string) (w : world) :
  order_footprint sheet_name w w.
Proof. split; [done|]. split; [by left|done]. Qed.

Lemma record_order_footprint (w : world) (sheet_name rm : string)
    (items : list json) (data : json) :
  order_footprint sheet_name w (record_order w sheet_name rm items data).2.
Proof.
  unfold record_order.
  destruct (worksheet_error w sheet_name); [apply order_footprint_refl|].
  destruct (read_fields data address_fields) as [cells|e];
    [|apply order_footprint_refl].
  cbv zeta.
  destruct (append_error w sheet_name _); cbn [snd].
  - split; [done|]. split; [right; by eexists|done].
  - split; [done|]. split; [right; by eexists|].
    intros other Hne. unfold appended, set_sheets. cbn [sheets].
    by apply lookup_insert_ne.
Qed.

Lemma make_order_tech_check_raises payload sheet_name (w : world) (e : exn) :
  check_registration (PayloadMakeOrderTech.rm payload) w = (Raise e, w) →
  make_order_tech payload sheet_name w = (Raise e, w).
Proof. intros Hc. unfold make_order_tech. run. by rewrite Hc. Qed.

Lemma make_order_poke_check_raises payload sheet_name (w : world) (e : exn) :
  check_registration (PayloadMakeOrderPoke.rm payload) w = (Raise e, w) →
  make_order_poke payload sheet_name w = (Raise e, w).
Proof. intros Hc. unfold make_order_poke. run. by rewrite Hc. Qed.

Lemma make_order_tech_footprint payload sheet_name (w : world) :
  order_footprint sheet_name w (make_order_tech payload sheet_name w).2.
Proof.
  destruct (db_file w) as [v|e] eqn:Hf.
  2: { rewrite (make_order_tech_check_raises payload sheet_name w e);
         [apply order_footprint_refl|by apply check_registration_unreadable]. }
  destruct (json_dict_or_not v) as [[db ->]|Hv].
  2: { erewrite make_order_tech_check_raises;
         [apply order_footprint_refl|by apply check_registration_not_dict]. }
  destruct (db !! PayloadMakeOrderTech.rm payload) as [data|] eqn:Hrm.
  - destruct (null_or_not data) as [->|Hdata].
    + destruct (make_order_tech_unregistered w db Hf payload sheet_name)
        as (c & _ & ->); [by right|apply order_footprint_refl].
    + rewrite (make_order_tech_run w db Hf payload sheet_name data Hrm Hdata).
      apply record_order_footprint.
  - destruct (make_order_tech_unregistered w db Hf payload sheet_name)
      as (c & _ & ->); [by left|apply order_footprint_refl].
Qed.

Lemma make_order_poke_footprint payload sheet_name (w : world) :
  order_footprint sheet_name w (make_order_poke payload sheet_name w).2.
Proof.
  destruct (db_file w) as [v|e] eqn:Hf.
  2: { rewrite (make_order_poke_check_raises payload sheet_name w e);
         [apply order_footprint_refl|by apply check_registration_unreadable]. }
  destruct (json_dict_or_not v) as [[db ->]|Hv].
  2: { erewrite make_order_poke_check_raises;
         [apply order_footprint_refl|by apply check_registration_not_dict]. }
  destruct (db !! PayloadMakeOrderPoke.rm payload) as [data|] eqn:Hrm.
  - destruct (null_or_not data) as [->|Hdata].
    + destruct (make_order_poke_unregistered w db Hf payload sheet_name)
        as (c & _ & ->); [by right|apply order_footprint_refl].
    + rewrite (make_order_poke_run w db Hf payload sheet_name data Hrm Hdata).
      apply record_order_footprint.
  - destruct (make_order_poke_unregistered w db Hf payload sheet_name)
      as (c & _ & ->); [by left|apply order_footprint_refl].
Qed.

(** X21: in any world and whatever it returns or raises, an order, tech or
    poke, does not change the store file, makes at most one call of
    [append_row], on its own worksheet, and changes no row of another
    worksheet. *)
Theorem order_changes_only_its_worksheet (sheet_name : string) (w : world) :
  (∀ payload,
     order_footprint sheet_name w (make_order_tech payload sheet_name w).2)
  ∧ (∀ payload,
       order_footprint sheet_name w (make_order_poke payload sheet_name w).2).
Proof.
  split; intros payload;
    [apply make_order_tech_footprint | apply make_order_poke_footprint].
Qed.

(** X22: when the store file cannot be loaded, an order, tech or poke,
    raises what the load raised and leaves the world as it was: the
    worksheet is not opened and nothing is appended. *)
Theorem order_store_unreadable (w : world) (e : exn) :
  db_file w = Unreadable e →
  (∀ payload sheet_name,
     make_order_tech payload sheet_name w = (Raise e, w))
  ∧ (∀ payload sheet_name,
       make_order_poke payload sheet_name w = (Raise e, w)).
Proof.
  intros Hf. split; intros payload sheet_name.
  - apply make_order_tech_check_raises. by apply check_registration_unreadable.
  - apply make_order_poke_check_raises. by apply check_registration_unreadable.
Qed.

Lemma order_store_unreadable_witness :
  (∀ payload sheet_name,
     make_order_tech payload sheet_name no_store_world
     = (Raise (OtherException "FileNotFoundError"
                 "[Errno 2] No such file or directory"), no_store_world))
  ∧ (∀ payload sheet_name,
       make_order_poke payload sheet_name no_store_world
       = (Raise (OtherException "FileNotFoundError"
                   "[Errno 2] No such file or directory"), no_store_world)).
Proof.
  apply (order_store_unreadable no_store_world). reflexivity.
Defined.

(** ** From the request to the operation *)

Lemma validate_model_sound (V : validation) (fields : gmap string json)
    (m : model) (i : input_data) :
  validate_model V fields m = Some i →
  model_of i = m ∧ validate_action m fields = true.
Proof.
  unfold validate_model. destruct (validate_action m fields); [|done].
  destruct m; intros (p & _ & ->)%fmap_Some; by split.
Qed.

Lemma validate_input_member (V : validation) (fields : gmap string json)
    (i : input_data) :
  validate_input V (JObj fields) = Some i →
  ∃ m, validate_model V fields m = Some i.
Proof.
  unfold validate_input.
  destruct (omap (validate_model V fields) union_members)
    as [|i0 rest] eqn:Hl; [done|].
  intros [= <-].
  assert (default i0 ((i0 :: rest) !! choose V (i0 :: rest)) ∈ i0 :: rest)
    as Hin.
  { destruct ((i0 :: rest) !! choose V (i0 :: rest)) as [x|] eqn:Hx.
    - by apply list_elem_of_lookup_2 in Hx.
    - apply list_elem_of_here. }
  generalize dependent (default i0 ((i0 :: rest) !! choose V (i0 :: rest))).
  intros i Hin. rewrite <- Hl in Hin.
  apply list_elem_of_omap in Hin as (m & _ & Hm). by exists m.
Qed.

(** X24: whatever the validation library does with the other fields and
    whichever class it keeps, an input that reaches [api_endpoint] from a
    body that names an action carries that action: a request is never
    dispatched to an operation other than the one it names. *)
Theorem validated_input_has_requested_action
    (V : validation) (fields : gmap string json) (a : json)
    (i : input_data) :
  validate_input V (JObj fields) = Some i →
  fields !! "action" = Some a →
  a = JStr (action i).
Proof.
  intros Hi Ha.
  destruct (validate_input_member V fields i Hi) as [m Hm].
  destruct (validate_model_sound V fields m i Hm) as [<- Hact].
  unfold validate_action in Hact. rewrite Ha in Hact.
  destruct a as [| | | |s| |]; try done.
  cbn [eq_str] in Hact. apply String.eqb_eq in Hact. by rewrite Hact.
Qed.

Lemma validated_input_has_requested_action_witness :
  JStr "check_registration"
  = JStr (action (InputCheckRegistration
                    (PayloadCheckRegistration.Build "54321"))).
Proof.
  apply (validated_input_has_requested_action plain_validation
           {[ "action" := JStr "check_registration"; "rm" := JStr "54321" ]});
    reflexivity.
Defined.

(** X23: when the store file cannot be loaded, every action but
    [get_address] ends in the exception of the load, raised out of
    [api_endpoint] with the world unchanged: the dispatcher catches
    nothing. *)
Theorem api_endpoint_store_unreadable
    (w : world) (e : exn) (i : input_data) :
  db_file w = Unreadable e →
  model_of i ≠ MGetAddress →
  api_endpoint i w = (Raise e, w).
Proof.
  intros Hf Hi. rewrite api_endpoint_dispatch.
  destruct i as [p|p|p|p|p]; [done| | | |]; run.
  - by rewrite (save_address_unreadable p w e Hf).
  - by rewrite (check_registration_unreadable _ w e Hf).
  - rewrite (make_order_tech_check_raises p _ w e); [done|].
    by apply check_registration_unreadable.
  - rewrite (make_order_poke_check_raises p _ w e); [done|].
    by apply check_registration_unreadable.
Qed.

Lemma api_endpoint_store_unreadable_witness :
  api_endpoint (InputSaveAddress save_ana) no_store_world =
    (Raise (OtherException "FileNotFoundError"
              "[Errno 2] No such file or directory"), no_store_world).
Proof.
  apply (api_endpoint_store_unreadable no_store_world); [reflexivity|done].
Defined.

(** ** Failures of an order *)

(** When the registration check returns, the store file holds a mapping,
    the world is unchanged and the result is the one of the entry. *)
Lemma check_registration_returns (rm : string) (w w1 : world) (c : json) :
  check_registration rm w = (Return c, w1) →
  ∃ db,
    db_file w = Holds (JObj db)
    ∧ w1 = w
    ∧ c = match db !! rm with
          | None => not_found rm
          | Some v =>
              if is_None v then unregistered_address rm else registered rm v
          end.
Proof.
  intros Hc. destruct (db_file w) as [v|e] eqn:Hf.
  2: { by rewrite (check_registration_unreadable rm w e Hf) in Hc. }
  destruct (json_dict_or_not v) as [[db ->]|Hv].
  2: { by rewrite (check_registration_not_dict rm w v Hf Hv) in Hc. }
  exists db. split; [done|].
  destruct (db !! rm) as [x|] eqn:Hrm.
  - rewrite (check_present w db rm Hf x Hrm) in Hc. split; congruence.
  - rewrite (check_absent w db rm Hf Hrm) in Hc. split; congruence.
Qed.

Lemma record_order_result (w : world) (sheet_name rm : string)
    (items : list json) (data : json) :
  (record_order w sheet_name rm items data).1 =
    Return match try_failure w sheet_name items data with
           | Some e => order_failure e
           | None => order_made rm
           end.
Proof.
  unfold record_order, try_failure.
  destruct (worksheet_error w sheet_name); [done|].
  destruct (read_fields data address_fields) as [cells|e]; [|done].
  cbv zeta. by destruct (append_error w sheet_name _).
Qed.

(** The end of an order, from what it has in common for tech and poke. *)
Lemma order_ends_from_run (w : world) (db : gmap string json)
    (sheet_name rm : string) (items : list json)
    (run : outcome json * world) :
  db_file w = Holds (JObj db) →
  (db !! rm = None ∨ db !! rm = Some JNull →
   ∃ c, check_registration rm w = (Return c, w) ∧ run = (Return c, w)) →
  (∀ data, db !! rm = Some data → data ≠ JNull →
           run = record_order w sheet_name rm items data) →
  order_ends w sheet_name rm items
    match db !! rm with
    | None => not_found rm
    | Some v => if is_None v then unregistered_address rm else registered rm v
    end run.
Proof.
  intros Hf Hun Hreg. unfold order_ends.
  destruct (db !! rm) as [v|] eqn:Hrm.
  - destruct (null_or_not v) as [->|Hv].
    + destruct Hun as (c & Hc & ->); [by right|].
      rewrite (check_null w db rm Hf Hrm) in Hc. injection Hc as <-.
      exists (unregistered_address rm). split; [done|]. by left.
    + rewrite (Hreg v eq_refl Hv).
      replace (is_None v) with false by by destruct v.
      eexists. split; [apply record_order_result|].
      right. exists v. split; [done|].
      destruct (try_failure w sheet_name items v) as [e|]; [|done].
      split; [done|apply order_failure_status].
  - destruct Hun as (c & Hc & ->); [by left|].
    rewrite (check_absent w db rm Hf Hrm) in Hc. injection Hc as <-.
    exists (not_found rm). split; [done|]. by left.
Qed.

(** C7 (as amended): the registration check of an order, which runs before
    the [try] block, returns: the store file loads and holds a mapping.
    Then the order, tech or poke, raises nothing.  For an identifier that
    is not registered it returns the error of the check; for a registered
    customer the first failure inside the [try] block (the worksheet cannot
    be opened, an address field of the record cannot be read, the append
    fails) is caught and returned as data, with status "api_error" for an
    [APIError], "missing_data" for a [KeyError] and "unknown_error" for any
    other exception; when nothing fails the result is "order_made". *)
Theorem order_failures_returned_as_data
    (w w1 : world) (rm sheet_name : string) (check_result : json) :
  check_registration rm w = (Return check_result, w1) →
  (∀ payload,
     PayloadMakeOrderTech.rm payload = rm →
     order_ends w sheet_name rm (tech_items payload) check_result
       (make_order_tech payload sheet_name w))
  ∧ (∀ payload,
       PayloadMakeOrderPoke.rm payload = rm →
       order_ends w sheet_name rm (poke_items payload) check_result
         (make_order_poke payload sheet_name w)).
Proof.
  intros Hc.
  destruct (check_registration_returns rm w w1 check_result Hc)
    as (db & Hf & -> & ->).
  split; intros payload <-.
  - apply (order_ends_from_run w db); [done| |].
    + intros Hrm.
      destruct (make_order_tech_unregistered w db Hf payload sheet_name Hrm)
        as (c & Hchk & Ho). by exists c.
    + intros data Hrm Hdata. by apply (make_order_tech_run w db).
  - apply (order_ends_from_run w db); [done| |].
    + intros Hrm.
      destruct (make_order_poke_unregistered w db Hf payload sheet_name Hrm)
        as (c & Hchk & Ho). by exists c.
    + intros data Hrm Hdata. by apply (make_order_poke_run w db).
Qed.

Lemma order_failures_returned_as_data_witness :
  (∀ payload,
     PayloadMakeOrderTech.rm payload = "54321" →
     order_ends sheets_refused_world tech_store_sheet_name "54321"
       (tech_items payload) (registered "54321" se_address)
       (make_order_tech payload tech_store_sheet_name sheets_refused_world))
  ∧ (∀ payload,
       PayloadMakeOrderPoke.rm payload = "54321" →
       order_ends sheets_refused_world tech_store_sheet_name "54321"
         (poke_items payload) (registered "54321" se_address)
         (make_order_poke payload tech_store_sheet_name
            sheets_refused_world)).
Proof.
  apply (order_failures_returned_as_data sheets_refused_world
           sheets_refused_world "54321" tech_store_sheet_name
           (registered "54321" se_address)).
  reflexivity.
Defined.
